(** * Voucher-discount order pipeline of the storefront worker

    Shallow embedding of the order and voucher routes of [src/index.tsx]
    (the revision that carries the [vouchers] table):

    - [createOrder]      is the handler of [POST /api/orders];
    - [validateVoucher]  is the handler of [POST /api/vouchers/validate];
    - [toggleVoucher], [deleteVoucher] and the [INSERT INTO vouchers]
      statement are the admin routes that touch a voucher row;
    - [toggleProduct], [deleteProduct], [updateOrderStatus], [deleteOrder]
      and [adminStats] are the admin routes on products and orders and
      the numbers of the dashboard;
    - [addToCart], [changeCartQty], [applyVoucher], [submitOrder],
      [submitCartOrder] and their like are the functions of the script of
      the storefront page that keep the cart and post to the two public
      routes.

    The D1 datastore is a record of tables (lists of rows in rowid order);
    a handler is a computation in a state-and-exception monad over it, so a
    write that happened before a later statement throws stays visible, as
    it does in the worker, which opens no transaction.

    Modelling range.  JSON numbers and the REAL columns are exact integers
    (amounts are whole units of currency); strings are ASCII; a request
    field is a JSON scalar or a plain object (arrays are left out); the
    date columns of a voucher hold ISO text, as the admin page writes them.
    The model is the worker only inside this range: [safe_integer],
    [ascii_only], [kept_as_text] and [dates_kept_as_text] say where a
    number, a text and a date are inside it, and a statement that depends
    on the arithmetic of numbers, on [trim] and [toUpperCase], or on the
    comparison of dates carries them as hypotheses.
    The comparison of an [INTEGER PRIMARY KEY] with a bound parameter is
    left to the datastore and is a parameter of the development. *)

From Stdlib Require Import ZArith List String Ascii Bool Lia DecimalString DecimalPos.
Import ListNotations.

Local Open Scope Z_scope.

(* ================================================================== *)
(** ** JavaScript strings *)

Module JsString.

Definition code (c : ascii) : Z := Z.of_nat (nat_of_ascii c).

(** White space removed by [String.prototype.trim] in the ASCII range:
    TAB, LF, VT, FF, CR and SPACE.  The spaces Unicode has beyond it
    (U+00A0, U+FEFF and the like), which [trim] removes as well, are
    outside the model: [trim] below is [String.prototype.trim] on a text
    of ASCII characters. *)
Definition is_space (c : ascii) : bool :=
  let n := code c in ((9 <=? n) && (n <=? 13)) || (n =? 32).

Fixpoint trimStart (s : string) : string :=
  match s with
  | EmptyString => EmptyString
  | String c s' => if is_space c then trimStart s' else s
  end.

Fixpoint trimEnd (s : string) : string :=
  match s with
  | EmptyString => EmptyString
  | String c s' =>
      match trimEnd s' with
      | EmptyString => if is_space c then EmptyString else String c EmptyString
      | t => String c t
      end
  end.

(** [s.trim()] *)
Definition trim (s : string) : string := trimEnd (trimStart s).

Definition upper_char (c : ascii) : ascii :=
  let n := code c in
  if (97 <=? n) && (n <=? 122) then ascii_of_nat (Z.to_nat (n - 32)) else c.

(** [s.toUpperCase()] on a text of ASCII characters, where the cased
    letters are [a] to [z]. *)
Fixpoint toUpperCase (s : string) : string :=
  match s with
  | EmptyString => EmptyString
  | String c s' => String (upper_char c) (toUpperCase s')
  end.

(** Value of [c] as a digit of the given radix, if it is one. *)
Definition digit_of (radix : Z) (c : ascii) : option Z :=
  let n := code c in
  let d := if (48 <=? n) && (n <=? 57) then Some (n - 48)
           else if (97 <=? n) && (n <=? 122) then Some (n - 87)
           else if (65 <=? n) && (n <=? 90) then Some (n - 55)
           else None in
  match d with
  | Some k => if k <? radix then Some k else None
  | None => None
  end.

(** Longest prefix of radix digits, read as a number; [acc] is [None]
    until a first digit has been seen. *)
Fixpoint digits (radix : Z) (s : string) (acc : option Z) : option Z :=
  match s with
  | EmptyString => acc
  | String c s' =>
      match digit_of radix c with
      | Some d =>
          digits radix s' (Some (radix * match acc with Some a => a | None => 0 end + d))
      | None => acc
      end
  end.

(** [parseInt(s)] with no radix argument, for a text of ASCII characters;
    [None] is [NaN].  The result is the integer the digits make, which is
    what [parseInt] returns when that integer is a safe integer (beyond,
    it returns the number nearest to it). *)
Definition parseInt (s : string) : option Z :=
  let s1 := trimStart s in
  let '(sign, s2) :=
    match s1 with
    | String "-" r => (-1, r)
    | String "+" r => (1, r)
    | _ => (1, s1)
    end in
  let '(radix, s3) :=
    match s2 with
    | String "0" (String "x" r) => (16, r)
    | String "0" (String "X" r) => (16, r)
    | _ => (10, s2)
    end in
  match digits radix s3 None with
  | Some m => Some (sign * m)
  | None => None
  end.

Definition digit36 (d : Z) : ascii :=
  ascii_of_nat (Z.to_nat (if d <? 10 then 48 + d else 87 + d)).

Fixpoint to_radix36 (fuel : nat) (n : Z) (acc : string) : string :=
  match fuel with
  | O => acc
  | S fuel' =>
      let acc' := String (digit36 (n mod 36)) acc in
      if n / 36 =? 0 then acc' else to_radix36 fuel' (n / 36) acc'
  end.

(** [n.toString(36)] for an integer [n]. *)
Definition toString36 (n : Z) : string :=
  if n <? 0
  then String "-" (to_radix36 (S (Z.to_nat (Z.log2 (- n)))) (- n) EmptyString)
  else to_radix36 (S (Z.to_nat (Z.log2 n))) n EmptyString.

End JsString.

(* ================================================================== *)
(** ** JavaScript values of a parsed JSON body *)

Module Js.

#[warnings="-register-all"] Inductive value : Type :=
| Undefined                (* the field is absent *)
| Null
| Bool (b : bool)
| Num (n : Z)
| Str (s : string)
| Obj (fields : list (string * value)).   (* a plain object *)

(** [ToBoolean] *)
Definition truthy (v : value) : bool :=
  match v with
  | Undefined | Null => false
  | Bool b => b
  | Num n => negb (n =? 0)
  | Str s => negb (s =? "")%string
  | Obj _ => true
  end.

(** [a || b] *)
Definition or_else (a b : value) : value := if truthy a then a else b.

(** [parseInt(v)]: the argument is first converted to a string.  The
    words [undefined], [null], [true], [false] and [[object Object]]
    start with no digit; a safe integer prints as its decimal digits and
    is read back as itself.  A number is taken among the safe integers:
    from 10^21 on a number prints with an exponent and [parseInt] reads
    its first digit only, which is outside the model. *)
Definition parseInt (v : value) : option Z :=
  match v with
  | Num n => Some n
  | Str s => JsString.parseInt s
  | Undefined | Null | Bool _ | Obj _ => None
  end.

(** [x || d] for a number-or-NaN [x]: [NaN] and [0] are falsy. *)
Definition num_or (x : option Z) (d : Z) : Z :=
  match x with
  | Some n => if n =? 0 then d else n
  | None => d
  end.

End Js.

(* ================================================================== *)
(** ** Rows and tables *)

Local Open Scope string_scope.
Local Open Scope Z_scope.

(** The columns of [products] that the order route reads. *)
Module Product.
Record t : Type := mk
  { id : Z; name : string; price : Z; is_active : Z }.
End Product.

Module Voucher.
Record t : Type := mk
  { id : Z;
    code : string;
    discount_amount : Z;
    valid_from : string;
    valid_to : string;
    usage_limit : Z;
    used_count : Z;
    is_active : Z }.

(** [SET used_count = used_count + 1] *)
Definition bump (v : t) : t :=
  mk (id v) (code v) (discount_amount v) (valid_from v) (valid_to v)
     (usage_limit v) (used_count v + 1) (is_active v).

(** [SET is_active = CASE WHEN is_active=1 THEN 0 ELSE 1 END] *)
Definition flip (v : t) : t :=
  mk (id v) (code v) (discount_amount v) (valid_from v) (valid_to v)
     (usage_limit v) (used_count v) (if is_active v =? 1 then 0 else 1).

End Voucher.

(** A row of [orders]; the two timestamp columns are filled by the
    datastore and are left out. *)
Module Order.
Record t : Type := mk
  { id : Z;
    order_code : string;
    customer_name : Js.value;
    customer_phone : Js.value;
    customer_address : Js.value;
    product_id : Js.value;
    product_name : string;
    product_price : Z;
    color : Js.value;
    size : Js.value;
    quantity : Z;
    total_price : Z;
    voucher_code : string;
    discount_amount : Z;
    note : Js.value;
    status : string }.
End Order.

(** The datastore.  [orders_seq] and [vouchers_seq] are the AUTOINCREMENT
    counters: the largest rowid each table has ever held. *)
Record Db : Type := mkDb
  { products : list Product.t;
    orders : list Order.t;
    orders_seq : Z;
    vouchers : list Voucher.t;
    vouchers_seq : Z }.

Definition set_vouchers (f : list Voucher.t -> list Voucher.t) (db : Db) : Db :=
  mkDb (products db) (orders db) (orders_seq db) (f (vouchers db)) (vouchers_seq db).

(* ================================================================== *)
(** ** Handlers as computations over the datastore *)

(** A thrown [Error]; only its [message] is ever read.  The wording of a
    message is the runtime's and no result below depends on it. *)
Record Exn : Type := mkExn { message : string }.

Inductive outcome (A : Type) : Type :=
| Returned (a : A)
| Thrown (e : Exn).
Arguments Returned {A} a.
Arguments Thrown {A} e.

Definition M (A : Type) : Type := Db -> outcome A * Db.

Definition ret {A} (a : A) : M A := fun db => (Returned a, db).

Definition throw {A} (e : Exn) : M A := fun db => (Thrown e, db).

Definition bind {A B} (m : M A) (k : A -> M B) : M B :=
  fun db =>
    match m db with
    | (Returned a, db') => k a db'
    | (Thrown e, db') => (Thrown e, db')
    end.

(** [try { m } catch (e) { h e }] *)
Definition try_catch {A} (m : M A) (h : Exn -> M A) : M A :=
  fun db =>
    match m db with
    | (Returned a, db') => (Returned a, db')
    | (Thrown e, db') => h e db'
    end.

Notation "x <- m ;; k" := (bind m (fun x => k))
  (at level 61, m at next level, right associativity).
Notation "m ;;; k" := (bind m (fun _ => k))
  (at level 61, right associativity).

(** What [c.json(obj, status)] sends. *)
Record Response : Type := mkResponse
  { status : Z; body : list (string * Js.value) }.

Definition json (obj : list (string * Js.value)) (st : Z) : Response :=
  mkResponse st obj.

(** [{ success: false, error }] *)
Definition failure (error : string) : list (string * Js.value) :=
  [("success", Js.Bool false); ("error", Js.Str error)].

(** [x.trim()] on a request field: only a string has the method. *)
Definition js_trim (field : string) (x : Js.value) : M string :=
  match x with
  | Js.Str s => ret (JsString.trim s)
  | Js.Undefined | Js.Null =>
      throw (mkExn "Cannot read properties of undefined (reading 'trim')")
  | _ => throw (mkExn (String.append field ".trim is not a function"))
  end.

(** [stmt.bind(...)]: D1 takes numbers, strings, booleans and null, and
    throws on the first parameter of another type. *)
Fixpoint d1_bind (params : list Js.value) : M unit :=
  match params with
  | [] => ret tt
  | Js.Undefined :: _ =>
      throw (mkExn "D1_TYPE_ERROR: Type 'undefined' not supported for value 'undefined'")
  | Js.Obj _ :: _ =>
      throw (mkExn "D1_TYPE_ERROR: Type 'object' not supported for value '[object Object]'")
  | _ :: rest => d1_bind rest
  end.

(** [initDB]: every statement is [CREATE ... IF NOT EXISTS] inside its own
    [try/catch]; the rows of existing tables are not touched. *)
Definition initDB : M unit := ret tt.

(** The parsed body of [POST /api/orders] (an absent field reads
    [undefined]) with the two clock readings the handler takes:
    [new Date().toISOString()] and [Date.now()]. *)
Module OrderRequest.
Record t : Type := mk
  { customer_name : Js.value;
    customer_phone : Js.value;
    customer_address : Js.value;
    product_id : Js.value;
    color : Js.value;
    size : Js.value;
    quantity : Js.value;
    note : Js.value;
    voucher_code : Js.value;
    now_iso : string;
    now_ms : Z }.
End OrderRequest.

(** ['FS' + Date.now().toString(36).toUpperCase()] *)
Definition order_code_at (now_ms : Z) : string :=
  String.append "FS" (JsString.toUpperCase (JsString.toString36 now_ms)).

(** [subtotal = product.price * qty; total = Math.max(0, subtotal - discount)] *)
Definition order_total (price qty discount : Z) : Z :=
  let subtotal := price * qty in
  Z.max 0 (subtotal - discount).

(* ================================================================== *)
(** ** The storefront script: the cart *)

(** The script of the storefront page is the text of the template literal
    that [storefrontHTML] returns, taken as the browser receives it.  Its
    functions work on the variables [cart], [orderQty], [appliedVoucher]
    and [ckAppliedVoucher] of the page; here each one is a function of the
    variables it reads, giving the values it leaves in the variables it
    writes.  What they draw on the page is left out, as is the copy of
    the cart in [localStorage]. *)

(** A line of the cart: [{ cartId, productId, name, sku, thumbnail, price,
    color, size, qty, checked }]. *)
Module CartItem.
Record t : Type := mk
  { cartId : string;
    productId : Z;
    name : string;
    sku : Js.value;
    thumbnail : Js.value;
    price : Z;
    color : string;
    size : string;
    qty : Z;
    checked : bool }.

(** [item.qty = q] *)
Definition with_qty (q : Z) (i : t) : t :=
  mk (cartId i) (productId i) (name i) (sku i) (thumbnail i) (price i)
     (color i) (size i) q (checked i).

(** [item.checked = b] *)
Definition with_checked (b : bool) (i : t) : t :=
  mk (cartId i) (productId i) (name i) (sku i) (thumbnail i) (price i)
     (color i) (size i) (qty i) b.
End CartItem.

(** The fields the script reads of a product the API has sent. *)
Module PageProduct.
Record t : Type := mk
  { id : Z;
    name : string;
    sku : Js.value;
    thumbnail : Js.value;
    price : Z }.
End PageProduct.

(** [String(n)] for a safe integer: its decimal digits, after the sign
    of a negative one. *)
Definition number_to_string (n : Z) : string :=
  NilZero.string_of_int (Z.to_int n).

Fixpoint repeat_char (c : ascii) (n : nat) : string :=
  match n with
  | O => EmptyString
  | S n' => String c (repeat_char c n')
  end.

(** [s.padStart(target, c)] for a one-character filler. *)
Definition padStart (target : nat) (c : ascii) (s : string) : string :=
  String.append (repeat_char c (target - String.length s)) s.

(** [i.productId===product.id && i.color===color && i.size===size] *)
Definition same_line (product_id : Z) (color size : string) (i : CartItem.t) : bool :=
  (CartItem.productId i =? product_id)
  && String.eqb (CartItem.color i) color
  && String.eqb (CartItem.size i) size.

(** [i.cartId===cartId] *)
Definition has_id (cartId : string) (i : CartItem.t) : bool :=
  String.eqb (CartItem.cartId i) cartId.

(** [const x = l.find(found); if (x) x.field = ...]: the first element that
    satisfies [found] is changed where it stands. *)
Fixpoint assign_first {A : Type} (found : A -> bool) (assign : A -> A) (l : list A)
  : list A :=
  match l with
  | [] => []
  | x :: rest =>
      if found x then assign x :: rest else x :: assign_first found assign rest
  end.

(** [addToCart(product, color, size, qty)]; [new_id] is what [genCartId()]
    returns, a mix of the clock and of [Math.random()]. *)
Definition addToCart (product : PageProduct.t) (color size : string) (qty : Z)
    (new_id : string) (cart : list CartItem.t) : list CartItem.t :=
  match find (same_line (PageProduct.id product) color size) cart with
  | Some _ =>
      assign_first (same_line (PageProduct.id product) color size)
        (fun exist => CartItem.with_qty (Z.min 99 (CartItem.qty exist + qty)) exist)
        cart
  | None =>
      cart ++
      [CartItem.mk new_id (PageProduct.id product) (PageProduct.name product)
         (Js.or_else (PageProduct.sku product)
            (Js.Str (String.append "SKU-"
                       (padStart 4 "0" (number_to_string (PageProduct.id product))))))
         (Js.or_else (PageProduct.thumbnail product)
            (Js.Str "https://images.unsplash.com/photo-1558618666-fcd25c85cd64?w=400"))
         (PageProduct.price product) color size qty true]
  end.

(** [cart.reduce((s,i)=>s+i.qty,0)] *)
Definition cartCount (cart : list CartItem.t) : Z :=
  fold_left (fun s i => s + CartItem.qty i) cart 0.

(** [updateCartBadge]: the text of the badge, [None] when it is hidden. *)
Definition updateCartBadge (cart : list CartItem.t) : option string :=
  let total := cartCount cart in
  if 0 <? total
  then Some (if 99 <? total then "99+" else number_to_string total)
  else None.

(** [toggleCheckAll(cb)] with [cb.checked = checked] *)
Definition toggleCheckAll (checked : bool) (cart : list CartItem.t) : list CartItem.t :=
  map (CartItem.with_checked checked) cart.

(** [toggleCartItem(cartId, checked)] *)
Definition toggleCartItem (cartId : string) (checked : bool)
    (cart : list CartItem.t) : list CartItem.t :=
  assign_first (has_id cartId) (CartItem.with_checked checked) cart.

(** [changeCartQty(cartId, delta)] *)
Definition changeCartQty (cartId : string) (delta : Z) (cart : list CartItem.t)
  : list CartItem.t :=
  assign_first (has_id cartId)
    (fun item => CartItem.with_qty (Z.max 1 (Z.min 99 (CartItem.qty item + delta))) item)
    cart.

(** [removeCartItem(cartId)] *)
Definition removeCartItem (cartId : string) (cart : list CartItem.t)
  : list CartItem.t :=
  filter (fun i => negb (has_id cartId i)) cart.

(** [removeChecked()] *)
Definition removeChecked (cart : list CartItem.t) : list CartItem.t :=
  filter (fun i => negb (CartItem.checked i)) cart.

(** [changeQty(d)]: the new [orderQty]. *)
Definition changeQty (d : Z) (orderQty : Z) : Z :=
  Z.max 1 (Z.min 99 (orderQty + d)).

(** The variant of a product a line stands for. *)
Definition line_key (i : CartItem.t) : Z * string * string :=
  (CartItem.productId i, CartItem.color i, CartItem.size i).

(** A cart as the script builds it: between 1 and 99 pieces on every
    line, one line for a variant of a product, one line for a cart id. *)
Definition cart_ok (cart : list CartItem.t) : Prop :=
  Forall (fun i => 1 <= CartItem.qty i <= 99) cart
  /\ NoDup (map line_key cart)
  /\ NoDup (map CartItem.cartId cart).

(** The pieces of a variant of a product in the cart. *)
Definition line_qty (product_id : Z) (color size : string) (cart : list CartItem.t) : Z :=
  fold_right (fun i acc => if same_line product_id color size i
                           then CartItem.qty i + acc else acc) 0 cart.

Section Worker.

(** [id = ?] on an INTEGER PRIMARY KEY against a bound parameter, as the
    datastore decides it (type affinity of the parameter included). *)
Variable key_eq : Js.value -> Z -> bool.

(** [SELECT * FROM products WHERE id=? AND is_active=1], [.first()] *)
Definition first_active_product (product_id : Js.value) : M (option Product.t) :=
  d1_bind [product_id] ;;;
  fun db =>
    (Returned (find (fun p => key_eq product_id (Product.id p)
                              && (Product.is_active p =? 1)) (products db)), db).

Definition voucher_matches (code now : string) (v : Voucher.t) : bool :=
  String.eqb (Voucher.code v) code
  && (Voucher.is_active v =? 1)
  && String.leb (Voucher.valid_from v) now
  && String.leb now (Voucher.valid_to v).

(** [SELECT * FROM vouchers WHERE code=? AND is_active=1 AND valid_from<=?
    AND valid_to>=?] bound to [(code, now, now)], [.first()].  The date
    columns hold ISO text, compared byte by byte. *)
Definition first_valid_voucher (code now : string) : M (option Voucher.t) :=
  fun db => (Returned (find (voucher_matches code now) (vouchers db)), db).

(** [UPDATE vouchers SET used_count=used_count+1 WHERE id=?] bound to the
    [id] of a row. *)
Definition increment_used_count (id : Z) : M unit :=
  fun db =>
    (Returned tt,
     set_vouchers (map (fun v => if Voucher.id v =? id then Voucher.bump v else v)) db).

(** [INSERT INTO orders (...) VALUES (?, ..., ?)], [.run()]; returns
    [meta.last_row_id].  [order_code] is UNIQUE. *)
Definition insert_order
    (order_code : string) (customer_name customer_phone customer_address
     product_id : Js.value) (product_name : string) (product_price : Z)
    (color size : Js.value) (quantity total_price : Z) (voucher_code : string)
    (discount_amount : Z) (note : Js.value) : M Z :=
  d1_bind [Js.Str order_code; customer_name; customer_phone; customer_address;
           product_id; Js.Str product_name; Js.Num product_price; color; size;
           Js.Num quantity; Js.Num total_price; Js.Str voucher_code;
           Js.Num discount_amount; note] ;;;
  fun db =>
    if existsb (fun o => String.eqb (Order.order_code o) order_code) (orders db)
    then (Thrown (mkExn "D1_ERROR: UNIQUE constraint failed: orders.order_code"), db)
    else
      let id := orders_seq db + 1 in
      (Returned id,
       mkDb (products db)
            (orders db ++
             [Order.mk id order_code customer_name customer_phone customer_address
                       product_id product_name product_price color size quantity
                       total_price voucher_code discount_amount note "pending"])
            id (vouchers db) (vouchers_seq db)).

(** [UPDATE vouchers SET is_active = CASE ... END WHERE id=?] *)
Definition toggle_active (id : Js.value) : M unit :=
  d1_bind [id] ;;;
  fun db =>
    (Returned tt,
     set_vouchers (map (fun v => if key_eq id (Voucher.id v) then Voucher.flip v else v)) db).

(** [DELETE FROM vouchers WHERE id=?] *)
Definition delete_voucher (id : Js.value) : M unit :=
  d1_bind [id] ;;;
  fun db =>
    (Returned tt, set_vouchers (filter (fun v => negb (key_eq id (Voucher.id v)))) db).

(** [INSERT INTO vouchers (code, discount_amount, valid_from, valid_to,
    usage_limit, is_active) VALUES (?, ?, ?, ?, ?, 1)]: [used_count] takes
    its default 0; [code] is UNIQUE.  The two dates are texts the DATETIME
    columns store as they are, as the ISO text the admin page sends is; a
    text that reads as a number, which these columns would store as a
    number, is outside the model. *)
Definition insert_voucher (code : string) (discount_amount : Z)
    (valid_from valid_to : string) (usage_limit : Z) : M Z :=
  fun db =>
    if existsb (fun v => String.eqb (Voucher.code v) code) (vouchers db)
    then (Thrown (mkExn "D1_ERROR: UNIQUE constraint failed: vouchers.code"), db)
    else
      let id := vouchers_seq db + 1 in
      (Returned id,
       mkDb (products db) (orders db) (orders_seq db)
            (vouchers db ++
             [Voucher.mk id code discount_amount valid_from valid_to usage_limit 0 1])
            id).

(** The voucher block of the order route: [inl] is an early [return] of
    the handler, [inr] the discount the order goes on with. *)
Definition redeem_voucher (voucher_code : Js.value) (now : string)
  : M (Response + Z) :=
  given <- (if Js.truthy voucher_code
            then t <- js_trim "voucher_code" voucher_code ;;
                 ret (Js.truthy (Js.Str t))
            else ret false) ;;
  if given then
    t <- js_trim "voucher_code" voucher_code ;;
    voucher <- first_valid_voucher (JsString.toUpperCase t) now ;;
    match voucher with
    | None => ret (inl (json (failure "INVALID_VOUCHER") 400))
    | Some voucher =>
        if (0 <? Voucher.usage_limit voucher)
           && (Voucher.usage_limit voucher <=? Voucher.used_count voucher)
        then ret (inl (json (failure "VOUCHER_LIMIT") 400))
        else
          increment_used_count (Voucher.id voucher) ;;;
          ret (inr (Voucher.discount_amount voucher))
    end
  else ret (inr 0).

(** [app.post('/api/orders', ...)] *)
Definition createOrder (req : OrderRequest.t) : M Response :=
  let '(OrderRequest.mk customer_name customer_phone customer_address
          product_id color size quantity note voucher_code now_iso now_ms) := req in
  try_catch
    (initDB ;;;
     if negb (Js.truthy customer_name) || negb (Js.truthy customer_phone)
        || negb (Js.truthy customer_address) || negb (Js.truthy product_id)
     then ret (json (failure "Missing required fields") 400)
     else
       product <- first_active_product product_id ;;
       match product with
       | None => ret (json (failure "Product not found") 404)
       | Some product =>
           let qty := Js.num_or (Js.parseInt quantity) 1 in
           redeemed <- redeem_voucher voucher_code now_iso ;;
           match redeemed with
           | inl response => ret response
           | inr discount =>
               let total := order_total (Product.price product) qty discount in
               let orderCode := order_code_at now_ms in
               stored_code <- (if Js.truthy voucher_code
                               then t <- js_trim "voucher_code" voucher_code ;;
                                    ret (JsString.toUpperCase t)
                               else ret "") ;;
               id <- insert_order orderCode customer_name customer_phone
                       customer_address product_id (Product.name product)
                       (Product.price product) (Js.or_else color (Js.Str ""))
                       (Js.or_else size (Js.Str "")) qty total stored_code
                       discount (Js.or_else note (Js.Str "")) ;;
               ret (json [("success", Js.Bool true);
                          ("order_code", Js.Str orderCode);
                          ("id", Js.Num id);
                          ("discount", Js.Num discount);
                          ("total", Js.Num total)] 200)
           end
       end)
    (fun e => ret (json (failure (message e)) 500)).

(** [app.post('/api/vouchers/validate', ...)]; [code] is the field of the
    body, [now] the reading of [new Date().toISOString()]. *)
Definition validateVoucher (code : Js.value) (now : string) : M Response :=
  try_catch
    (initDB ;;;
     if negb (Js.truthy code)
     then ret (json (failure "MISSING_CODE") 400)
     else
       t <- js_trim "code" code ;;
       voucher <- first_valid_voucher (JsString.toUpperCase t) now ;;
       match voucher with
       | None => ret (json (failure "INVALID_VOUCHER") 400)
       | Some voucher =>
           if (0 <? Voucher.usage_limit voucher)
              && (Voucher.usage_limit voucher <=? Voucher.used_count voucher)
           then ret (json (failure "VOUCHER_LIMIT") 400)
           else
             ret (json [("success", Js.Bool true);
                        ("data", Js.Obj [("id", Js.Num (Voucher.id voucher));
                                         ("code", Js.Str (Voucher.code voucher));
                                         ("discount_amount",
                                          Js.Num (Voucher.discount_amount voucher))])]
                  200)
       end)
    (fun e => ret (json (failure (message e)) 500)).

(** [app.patch('/api/admin/vouchers/:id/toggle', ...)]; [id] is the path
    parameter. *)
Definition toggleVoucher (id : string) : M Response :=
  try_catch
    (toggle_active (Js.Str id) ;;;
     ret (json [("success", Js.Bool true)] 200))
    (fun e => ret (json (failure (message e)) 500)).

(** [app.delete('/api/admin/vouchers/:id', ...)] *)
Definition deleteVoucher (id : string) : M Response :=
  try_catch
    (delete_voucher (Js.Str id) ;;;
     ret (json [("success", Js.Bool true)] 200))
    (fun e => ret (json (failure (message e)) 500)).

(** The operations of the worker that read or write a voucher row.  Of
    the voucher creation route only its INSERT statement is kept, with
    whatever values the route binds to it. *)
Inductive Operation : Type :=
| OpCreateOrder (req : OrderRequest.t)
| OpValidateVoucher (code : Js.value) (now : string)
| OpToggleVoucher (id : string)
| OpDeleteVoucher (id : string)
| OpInsertVoucher (code : string) (discount_amount : Z)
                  (valid_from valid_to : string) (usage_limit : Z).

(** The datastore after an operation. *)
Definition perform (op : Operation) (db : Db) : Db :=
  match op with
  | OpCreateOrder req => snd (createOrder req db)
  | OpValidateVoucher code now => snd (validateVoucher code now db)
  | OpToggleVoucher id => snd (toggleVoucher id db)
  | OpDeleteVoucher id => snd (deleteVoucher id db)
  | OpInsertVoucher code d from to limit => snd (insert_voucher code d from to limit db)
  end.


(* ================================================================== *)
(** ** Vocabulary of the statements *)

(** The form under which a voucher code is looked up and stored:
    [code.trim().toUpperCase()]. *)
Definition normalize (s : string) : string :=
  JsString.toUpperCase (JsString.trim s).





(** A voucher code is given when the field is a string that is not all
    white space: the guard [voucher_code && voucher_code.trim()]. *)
Definition code_given (voucher_code : Js.value) : bool :=
  match voucher_code with
  | Js.Str s => negb (String.eqb (JsString.trim s) "")
  | _ => false
  end.

(** The limit test of both routes. *)
Definition limit_reached (v : Voucher.t) : bool :=
  (0 <? Voucher.usage_limit v) && (Voucher.usage_limit v <=? Voucher.used_count v).

(** The row looked up for a code at a time. *)
Definition lookup (code now : string) (db : Db) : option Voucher.t :=
  find (voucher_matches code now) (vouchers db).

(** The datastore after the [used_count] of row [id] went up by one. *)
Definition redeemed (id : Z) (db : Db) : Db :=
  set_vouchers (map (fun v => if Voucher.id v =? id then Voucher.bump v else v)) db.

(** The ways the voucher block of the order route can end. *)
Inductive redeem_result (voucher_code : Js.value) (now : string) (db : Db)
  : outcome (Response + Z) * Db -> Prop :=
| Redeem_type_error e :
    Js.truthy voucher_code = true ->
    (forall s, voucher_code <> Js.Str s) ->
    redeem_result voucher_code now db (Thrown e, db)
| Redeem_no_code :
    code_given voucher_code = false ->
    (Js.truthy voucher_code = true -> exists s, voucher_code = Js.Str s) ->
    redeem_result voucher_code now db (Returned (inr 0), db)
| Redeem_invalid s :
    voucher_code = Js.Str s ->
    code_given voucher_code = true ->
    lookup (normalize s) now db = None ->
    redeem_result voucher_code now db
      (Returned (inl (json (failure "INVALID_VOUCHER") 400)), db)
| Redeem_limit s v :
    voucher_code = Js.Str s ->
    code_given voucher_code = true ->
    lookup (normalize s) now db = Some v ->
    limit_reached v = true ->
    redeem_result voucher_code now db
      (Returned (inl (json (failure "VOUCHER_LIMIT") 400)), db)
| Redeem_counted s v :
    voucher_code = Js.Str s ->
    code_given voucher_code = true ->
    lookup (normalize s) now db = Some v ->
    limit_reached v = false ->
    redeem_result voucher_code now db
      (Returned (inr (Voucher.discount_amount v)), redeemed (Voucher.id v) db).

(** The parameters D1 accepts in [bind]. *)
Definition bindable (v : Js.value) : bool :=
  match v with
  | Js.Undefined | Js.Obj _ => false
  | _ => true
  end.

(** The guard on the required fields of an order. *)
Definition required_given (req : OrderRequest.t) : bool :=
  Js.truthy (OrderRequest.customer_name req)
  && Js.truthy (OrderRequest.customer_phone req)
  && Js.truthy (OrderRequest.customer_address req)
  && Js.truthy (OrderRequest.product_id req).

(** The product row the order route reads. *)
Definition find_product (product_id : Js.value) (db : Db) : option Product.t :=
  find (fun p => key_eq product_id (Product.id p) && (Product.is_active p =? 1))
       (products db).

(** [parseInt(quantity) || 1] *)
Definition quantity_of (req : OrderRequest.t) : Z :=
  Js.num_or (Js.parseInt (OrderRequest.quantity req)) 1.

(** [voucher_code ? voucher_code.trim().toUpperCase() : ''] where it does
    not throw. *)
Definition stored_code (voucher_code : Js.value) : string :=
  match voucher_code with
  | Js.Str s => normalize s
  | _ => ""
  end.

(** The row the order route inserts. *)
Definition order_row (req : OrderRequest.t) (p : Product.t) (discount id : Z)
  : Order.t :=
  Order.mk id (order_code_at (OrderRequest.now_ms req))
    (OrderRequest.customer_name req) (OrderRequest.customer_phone req)
    (OrderRequest.customer_address req) (OrderRequest.product_id req)
    (Product.name p) (Product.price p)
    (Js.or_else (OrderRequest.color req) (Js.Str ""))
    (Js.or_else (OrderRequest.size req) (Js.Str ""))
    (quantity_of req)
    (order_total (Product.price p) (quantity_of req) discount)
    (stored_code (OrderRequest.voucher_code req))
    discount
    (Js.or_else (OrderRequest.note req) (Js.Str ""))
    "pending".

Definition add_order (o : Order.t) (db : Db) : Db :=
  mkDb (products db) (orders db ++ [o]) (Order.id o) (vouchers db) (vouchers_seq db).

(** The INSERT of the order goes through: D1 accepts every parameter and
    the order code is not taken. *)
Definition insertable (req : OrderRequest.t) (db : Db) : bool :=
  forallb bindable
    [ OrderRequest.customer_name req; OrderRequest.customer_phone req;
      OrderRequest.customer_address req; OrderRequest.product_id req;
      Js.or_else (OrderRequest.color req) (Js.Str "");
      Js.or_else (OrderRequest.size req) (Js.Str "");
      Js.or_else (OrderRequest.note req) (Js.Str "") ]
  && negb (existsb (fun o => String.eqb (Order.order_code o)
                                        (order_code_at (OrderRequest.now_ms req)))
                   (orders db)).

(** The reply of a created order. *)
Definition created_reply (o : Order.t) : Response :=
  json [("success", Js.Bool true);
        ("order_code", Js.Str (Order.order_code o));
        ("id", Js.Num (Order.id o));
        ("discount", Js.Num (Order.discount_amount o));
        ("total", Js.Num (Order.total_price o))] 200.

(** The ways the order route can end. *)
Inductive order_result (req : OrderRequest.t) (db : Db)
  : outcome Response * Db -> Prop :=
| Order_missing :
    required_given req = false ->
    order_result req db
      (Returned (json (failure "Missing required fields") 400), db)
| Order_product_unbound e :
    required_given req = true ->
    bindable (OrderRequest.product_id req) = false ->
    order_result req db (Returned (json (failure (message e)) 500), db)
| Order_not_found :
    required_given req = true ->
    bindable (OrderRequest.product_id req) = true ->
    find_product (OrderRequest.product_id req) db = None ->
    order_result req db (Returned (json (failure "Product not found") 404), db)
| Order_voucher_thrown p e :
    required_given req = true ->
    find_product (OrderRequest.product_id req) db = Some p ->
    redeem_voucher (OrderRequest.voucher_code req) (OrderRequest.now_iso req) db
      = (Thrown e, db) ->
    order_result req db (Returned (json (failure (message e)) 500), db)
| Order_voucher_rejected p r :
    required_given req = true ->
    find_product (OrderRequest.product_id req) db = Some p ->
    redeem_voucher (OrderRequest.voucher_code req) (OrderRequest.now_iso req) db
      = (Returned (inl r), db) ->
    order_result req db (Returned r, db)
| Order_insert_failed p discount db1 e :
    required_given req = true ->
    find_product (OrderRequest.product_id req) db = Some p ->
    redeem_voucher (OrderRequest.voucher_code req) (OrderRequest.now_iso req) db
      = (Returned (inr discount), db1) ->
    insertable req db1 = false ->
    order_result req db (Returned (json (failure (message e)) 500), db1)
| Order_created p discount db1 :
    required_given req = true ->
    find_product (OrderRequest.product_id req) db = Some p ->
    redeem_voucher (OrderRequest.voucher_code req) (OrderRequest.now_iso req) db
      = (Returned (inr discount), db1) ->
    insertable req db1 = true ->
    let o := order_row req p discount (orders_seq db1 + 1) in
    order_result req db (Returned (created_reply o), add_order o db1).


(** A voucher row answers to a code at a time: the WHERE clause of the
    voucher lookup, read on one row. *)
Definition valid_at (code now : string) (v : Voucher.t) : Prop :=
  Voucher.code v = code
  /\ Voucher.is_active v = 1
  /\ String.leb (Voucher.valid_from v) now = true
  /\ String.leb now (Voucher.valid_to v) = true.










(* ================================================================== *)
(** ** The admin routes on products and orders, and the dashboard *)

Definition set_products (f : list Product.t -> list Product.t) (db : Db) : Db :=
  mkDb (f (products db)) (orders db) (orders_seq db) (vouchers db) (vouchers_seq db).

Definition set_orders (f : list Order.t -> list Order.t) (db : Db) : Db :=
  mkDb (products db) (f (orders db)) (orders_seq db) (vouchers db) (vouchers_seq db).

(** [SET is_active = CASE WHEN is_active=1 THEN 0 ELSE 1 END] on a product. *)
Definition flip_product (p : Product.t) : Product.t :=
  Product.mk (Product.id p) (Product.name p) (Product.price p)
             (if Product.is_active p =? 1 then 0 else 1).

(** [app.patch('/api/admin/products/:id/toggle', ...)]:
    [UPDATE products SET is_active = CASE ... END, updated_at=... WHERE id=?] *)
Definition toggleProduct (id : string) : M Response :=
  try_catch
    (d1_bind [Js.Str id] ;;;
     (fun db =>
        (Returned tt,
         set_products (map (fun p => if key_eq (Js.Str id) (Product.id p)
                                     then flip_product p else p)) db)) ;;;
     ret (json [("success", Js.Bool true)] 200))
    (fun e => ret (json (failure (message e)) 500)).

(** [app.delete('/api/admin/products/:id', ...)]:
    [DELETE FROM products WHERE id = ?] *)
Definition deleteProduct (id : string) : M Response :=
  try_catch
    (d1_bind [Js.Str id] ;;;
     (fun db =>
        (Returned tt,
         set_products (filter (fun p => negb (key_eq (Js.Str id) (Product.id p)))) db)) ;;;
     ret (json [("success", Js.Bool true)] 200))
    (fun e => ret (json (failure (message e)) 500)).

(** [SET status=?] on an order. *)
Definition with_status (status : string) (o : Order.t) : Order.t :=
  Order.mk (Order.id o) (Order.order_code o) (Order.customer_name o)
           (Order.customer_phone o) (Order.customer_address o) (Order.product_id o)
           (Order.product_name o) (Order.product_price o) (Order.color o)
           (Order.size o) (Order.quantity o) (Order.total_price o)
           (Order.voucher_code o) (Order.discount_amount o) (Order.note o) status.

(** [app.patch('/api/admin/orders/:id/status', ...)] for a body whose
    [status] is a string (the admin page sends one of five words; the
    route itself checks nothing):
    [UPDATE orders SET status=?, updated_at=... WHERE id=?] *)
Definition updateOrderStatus (id : string) (status : string) : M Response :=
  try_catch
    (d1_bind [Js.Str status; Js.Str id] ;;;
     (fun db =>
        (Returned tt,
         set_orders (map (fun o => if key_eq (Js.Str id) (Order.id o)
                                   then with_status status o else o)) db)) ;;;
     ret (json [("success", Js.Bool true)] 200))
    (fun e => ret (json (failure (message e)) 500)).

(** [app.delete('/api/admin/orders/:id', ...)]:
    [DELETE FROM orders WHERE id = ?] *)
Definition deleteOrder (id : string) : M Response :=
  try_catch
    (d1_bind [Js.Str id] ;;;
     (fun db =>
        (Returned tt,
         set_orders (filter (fun o => negb (key_eq (Js.Str id) (Order.id o)))) db)) ;;;
     ret (json [("success", Js.Bool true)] 200))
    (fun e => ret (json (failure (message e)) 500)).

Definition sum_total_price (rows : list Order.t) : Z :=
  fold_right (fun o acc => Order.total_price o + acc) 0 rows.

(** [SUM(total_price)] over rows: NULL ([None]) when there is no row. *)
Definition sql_sum (rows : list Order.t) : option Z :=
  match rows with
  | [] => None
  | _ => Some (sum_total_price rows)
  end.

(** What an order adds to the revenue of the dashboard. *)
Definition counted_total (o : Order.t) : Z :=
  if String.eqb (Order.status o) "cancelled" then 0 else Order.total_price o.

(** The four numbers of [app.get('/api/admin/stats', ...)]; the fifth
    field of its reply, the five latest orders, is not modelled. *)
Record Stats : Type := mkStats
  { totalProducts : Z; totalOrders : Z; pendingOrders : Z; revenue : Z }.

Definition sql_count {A : Type} (rows : list A) : Z := Z.of_nat (List.length rows).

Definition adminStats (db : Db) : Stats :=
  (* SELECT COUNT( * ) as count FROM products WHERE is_active=1 *)
  let totalProducts :=
    sql_count (filter (fun p => Product.is_active p =? 1) (products db)) in
  (* SELECT COUNT( * ) as count FROM orders *)
  let totalOrders := sql_count (orders db) in
  (* SELECT COUNT( * ) as count FROM orders WHERE status='pending' *)
  let pendingOrders :=
    sql_count (filter (fun o => String.eqb (Order.status o) "pending") (orders db)) in
  (* SELECT SUM(total_price) as total FROM orders WHERE status != 'cancelled' *)
  let revenue :=
    sql_sum (filter (fun o => negb (String.eqb (Order.status o) "cancelled"))
                    (orders db)) in
  mkStats (Js.num_or (Some totalProducts) 0)
          (Js.num_or (Some totalOrders) 0)
          (Js.num_or (Some pendingOrders) 0)
          (Js.num_or revenue 0).

(** What the schema of [orders] guarantees, with what the order route
    puts in: ids from the AUTOINCREMENT counter, UNIQUE order codes,
    totals that are not negative. *)
Definition orders_ok (db : Db) : Prop :=
  NoDup (map Order.id (orders db))
  /\ NoDup (map Order.order_code (orders db))
  /\ Forall (fun o => Order.id o <= orders_seq db /\ 0 <= Order.total_price o)
            (orders db).

(** A request to one of the admin routes on products and orders. *)
Inductive AdminOperation : Type :=
| OpToggleProduct (id : string)
| OpDeleteProduct (id : string)
| OpUpdateOrderStatus (id status : string)
| OpDeleteOrder (id : string).

(** The datastore after a request to any of the modelled routes. *)
Definition perform_any (op : Operation + AdminOperation) (db : Db) : Db :=
  match op with
  | inl op => perform op db
  | inr (OpToggleProduct id) => snd (toggleProduct id db)
  | inr (OpDeleteProduct id) => snd (deleteProduct id db)
  | inr (OpUpdateOrderStatus id status) => snd (updateOrderStatus id status db)
  | inr (OpDeleteOrder id) => snd (deleteOrder id db)
  end.

(** Requests served one after the other. *)
Definition perform_all (ops : list (Operation + AdminOperation)) (db : Db) : Db :=
  fold_left (fun db op => perform_any op db) ops db.

(* ================================================================== *)
(** ** The storefront script: vouchers and orders *)

(** [obj.k] for a parsed JSON object, whose keys are distinct. *)
Definition field (k : string) (obj : list (string * Js.value)) : Js.value :=
  match find (fun kv => String.eqb (fst kv) k) obj with
  | Some kv => snd kv
  | None => Js.Undefined
  end.

(** [v.k] for a truthy [v]: only an object has a property of its own. *)
Definition property (k : string) (v : Js.value) : Js.value :=
  match v with
  | Js.Obj fields => field k fields
  | _ => Js.Undefined
  end.

(** [await axios.post(url, body)] against the handler of the route: with
    a 2xx status the promise resolves with the response ([inl]); with
    another one it rejects with an error that carries the response
    ([inr]).  A handler that throws is answered by the runtime with a 500
    that has no JSON body. *)
Definition axios_post (handler : M Response) : Db -> (Response + Response) * Db :=
  fun db =>
    match handler db with
    | (Returned r, db') =>
        (if (200 <=? status r) && (status r <? 300) then inl r else inr r, db')
    | (Thrown _, db') => (inr (mkResponse 500 []), db')
    end.

(** [applyVoucher()]: the new [appliedVoucher]; [input] is the text of the
    voucher box and [now] the clock of the server when it validates. *)
Definition applyVoucher (input now : string) (appliedVoucher : Js.value)
  : Db -> Js.value * Db :=
  fun db =>
    let code := JsString.toUpperCase (JsString.trim input) in
    if String.eqb code "" then (appliedVoucher, db)
    else
      match axios_post (validateVoucher (Js.Str code) now) db with
      | (inl res, db') => (field "data" (body res), db')
      | (inr _, db') => (Js.Null, db')
      end.

(** [applyCkVoucher()] does the same with the voucher box of the cart and
    [ckAppliedVoucher]. *)
Definition applyCkVoucher (input now : string) (ckAppliedVoucher : Js.value)
  : Db -> Js.value * Db :=
  applyVoucher input now ckAppliedVoucher.

(** [applied ? applied.discount_amount : 0] *)
Definition discount_shown (applied : Js.value) : Js.value :=
  if Js.truthy applied then property "discount_amount" applied else Js.Num 0.

(** [applied ? applied.code : ''] *)
Definition code_sent (applied : Js.value) : Js.value :=
  if Js.truthy applied then property "code" applied else Js.Str "".

(** [updateOrderTotal()]: the total the order popup shows,
    [Math.max(0, subtotal - discount)].  [None]: nothing is written (no
    product is open) or the discount is not a number, which no reply of
    the validate route makes it. *)
Definition updateOrderTotal (currentProduct : option PageProduct.t) (orderQty : Z)
    (appliedVoucher : Js.value) : option Z :=
  match currentProduct with
  | None => None
  | Some product =>
      let subtotal := PageProduct.price product * orderQty in
      match discount_shown appliedVoucher with
      | Js.Num discount => Some (Z.max 0 (subtotal - discount))
      | _ => None
      end
  end.


Definition is_digit (c : ascii) : bool :=
  (48 <=? JsString.code c) && (JsString.code c <=? 57).

(** [s.replace(/c/g,'')] for a class [drop] of characters. *)
Fixpoint remove_chars (drop : ascii -> bool) (s : string) : string :=
  match s with
  | EmptyString => EmptyString
  | String c s' =>
      if drop c then remove_chars drop s' else String c (remove_chars drop s')
  end.

Fixpoint all_digits (s : string) : bool :=
  match s with
  | EmptyString => true
  | String c s' => is_digit c && all_digits s'
  end.

(** [/^[0-9]{9,11}$/.test(s)] *)
Definition nine_to_eleven_digits (s : string) : bool :=
  all_digits s
  && (9 <=? Z.of_nat (String.length s)) && (Z.of_nat (String.length s) <=? 11).

(** The test of the phone in [submitOrder]: the pattern is written with a
    doubled backslash in the template literal, so the script removes
    white space before it counts the digits. *)
Definition order_phone_refused (phone : string) : bool :=
  String.eqb phone ""
  || negb (nine_to_eleven_digits (remove_chars JsString.is_space phone)).

(** The test of the phone in [submitCartOrder]: the pattern is written
    with a single backslash, which the template literal drops, so the
    script removes the letter [s]. *)
Definition cart_phone_refused (phone : string) : bool :=
  String.eqb phone ""
  || negb (nine_to_eleven_digits (remove_chars (Ascii.eqb "s") phone)).

(** The values of the inputs of an order form. *)
Record OrderForm : Type := mkOrderForm
  { formName : string;
    formPhone : string;
    formAddress : string;
    formNote : string }.

(** How a submission ends: a field is shaken and nothing is sent; every
    request went through, [codes] being the [order_code] of each reply
    (the toast of the popup shows the one code, the toast of the cart
    shows [codes.length], their number); the toast says the voucher has
    lapsed; the toast says the order failed. *)
Inductive Submitted : Type :=
| FieldRejected (shaken : string)
| Placed (codes : list Js.value)
| VoucherLapsed
| Failed.

(** [errCode==='INVALID_VOUCHER'||errCode==='VOUCHER_LIMIT'] for
    [errCode = e.response?.data?.error] *)
Definition lapsed (res : Response) : bool :=
  match field "error" (body res) with
  | Js.Str errCode =>
      String.eqb errCode "INVALID_VOUCHER" || String.eqb errCode "VOUCHER_LIMIT"
  | _ => false
  end.

(** [submitOrder()]: how it ends and the new [appliedVoucher]; [clock] is
    the two readings the server takes when it handles the request. *)
Definition submitOrder (form : OrderForm) (clock : string * Z)
    (currentProduct : option PageProduct.t) (selectedColor selectedSize : string)
    (orderQty : Z) (appliedVoucher : Js.value)
  : Db -> (Submitted * Js.value) * Db :=
  fun db =>
    let name := JsString.trim (formName form) in
    let phone := JsString.trim (formPhone form) in
    let address := JsString.trim (formAddress form) in
    if String.eqb name "" then ((FieldRejected "fieldName", appliedVoucher), db)
    else if order_phone_refused phone
    then ((FieldRejected "fieldPhone", appliedVoucher), db)
    else if String.eqb address ""
    then ((FieldRejected "fieldAddress", appliedVoucher), db)
    else
      match currentProduct with
      | None => ((Failed, appliedVoucher), db)
      | Some product =>
          match axios_post
                  (createOrder
                     (OrderRequest.mk (Js.Str name) (Js.Str phone) (Js.Str address)
                        (Js.Num (PageProduct.id product))
                        (Js.Str selectedColor) (Js.Str selectedSize)
                        (Js.Num orderQty)
                        (Js.Str (JsString.trim (formNote form)))
                        (code_sent appliedVoucher)
                        (fst clock) (snd clock))) db with
          | (inl res, db') =>
              ((Placed [field "order_code" (body res)], appliedVoucher), db')
          | (inr res, db') =>
              if lapsed res then ((VoucherLapsed, Js.Null), db')
              else ((Failed, appliedVoucher), db')
          end
      end.

(** The request [submitCartOrder] posts for a line of the cart. *)
Definition line_request (name phone address note : string) (voucher_code : Js.value)
    (clock : string * Z) (item : CartItem.t) : OrderRequest.t :=
  OrderRequest.mk (Js.Str name) (Js.Str phone) (Js.Str address)
    (Js.Num (CartItem.productId item))
    (Js.Str (CartItem.color item)) (Js.Str (CartItem.size item))
    (Js.Num (CartItem.qty item)) (Js.Str note) voucher_code
    (fst clock) (snd clock).

(** [for (const item of checkedItems) { const res = await axios.post(...);
    codes.push(res.data.order_code) }]: the codes when every request went
    through ([inl]), or the response that rejected the first one that did
    not ([inr]).  [clock k] is the clock of the server at request [k]. *)
Fixpoint post_lines (name phone address note : string) (voucher_code : Js.value)
    (clock : nat -> string * Z) (k : nat) (items : list CartItem.t)
    (codes : list Js.value) : Db -> (list Js.value + Response) * Db :=
  fun db =>
    match items with
    | [] => (inl codes, db)
    | item :: rest =>
        match axios_post
                (createOrder (line_request name phone address note voucher_code
                                (clock k) item)) db with
        | (inl res, db') =>
            post_lines name phone address note voucher_code clock (S k) rest
              (codes ++ [field "order_code" (body res)]) db'
        | (inr res, db') => (inr res, db')
        end
    end.

(** [submitCartOrder()]: how it ends, with the new [cart] and
    [ckAppliedVoucher]. *)
Definition submitCartOrder (form : OrderForm) (clock : nat -> string * Z)
    (cart : list CartItem.t) (ckAppliedVoucher : Js.value)
  : Db -> (Submitted * (list CartItem.t * Js.value)) * Db :=
  fun db =>
    let name := JsString.trim (formName form) in
    let phone := JsString.trim (formPhone form) in
    let address := JsString.trim (formAddress form) in
    if String.eqb name ""
    then ((FieldRejected "ckFieldName", (cart, ckAppliedVoucher)), db)
    else if cart_phone_refused phone
    then ((FieldRejected "ckFieldPhone", (cart, ckAppliedVoucher)), db)
    else if String.eqb address ""
    then ((FieldRejected "ckFieldAddress", (cart, ckAppliedVoucher)), db)
    else
      let note := JsString.trim (formNote form) in
      let checkedItems := filter CartItem.checked cart in
      match post_lines name phone address note (code_sent ckAppliedVoucher)
              clock O checkedItems [] db with
      | (inl codes, db') =>
          ((Placed codes,
            (filter (fun i => negb (CartItem.checked i)) cart, ckAppliedVoucher)), db')
      | (inr res, db') =>
          if lapsed res then ((VoucherLapsed, (cart, Js.Null)), db')
          else ((Failed, (cart, ckAppliedVoucher)), db')
      end.


(** The order a line of the cart is placed as. *)
Definition line_ordered (item : CartItem.t) (o : Order.t) : Prop :=
  Order.product_id o = Js.Num (CartItem.productId item)
  /\ Order.color o = Js.Str (CartItem.color item)
  /\ Order.size o = Js.Str (CartItem.size item)
  /\ Order.quantity o = Js.num_or (Some (CartItem.qty item)) 1.

(* ================================================================== *)
(** ** The range in which the model is exact *)

(** A text of the ASCII range.  On such a text [JsString.trim] and
    [JsString.toUpperCase] are [String.prototype.trim] and
    [String.prototype.toUpperCase]; the spaces and the cased letters that
    Unicode has beyond it are not modelled. *)
Definition ascii_only (s : string) : bool :=
  forallb (fun c => JsString.code c <? 128) (list_ascii_of_string s).

(** [Number.isSafeInteger(n)]: the integers that are numbers of JavaScript
    together with their neighbours, so that [String(n)], [parseInt] and
    an addition, subtraction or product whose result is one of them are
    exact. *)
Definition safe_integer (n : Z) : Prop := - (2 ^ 53 - 1) <= n <= 2 ^ 53 - 1.

(** The characters an integer or real literal of the datastore is made
    of, with the white space it may have around it. *)
Definition numeric_char (c : ascii) : bool :=
  is_digit c || JsString.is_space c
  || existsb (Ascii.eqb c) ["+"; "-"; "."; "e"; "E"]%char.

(** A text that a DATETIME column, whose affinity is NUMERIC, stores as
    text and compares as text: one with a character that no numeric
    literal has, such as the ISO text [toISOString()] returns.  (A text
    that reads as a number is stored as that number, and a number sorts
    below every text.) *)
Definition kept_as_text (s : string) : bool :=
  existsb (fun c => negb (numeric_char c)) (list_ascii_of_string s).






(* ================================================================== *)
(** ** A sample store *)

(** One instance of the key comparison: a number parameter, or a string of
    decimal digits only, equal to the id. *)
Definition sample_key_eq (k : Js.value) (id : Z) : bool :=
  match k with
  | Js.Num n => n =? id
  | Js.Str s =>
      match JsString.digits 10 s None with
      | Some n =>
          (n =? id)
          && forallb (fun c => match JsString.digit_of 10 c with
                               | Some _ => true
                               | None => false
                               end) (list_ascii_of_string s)
      | None => false
      end
  | _ => false
  end.

Definition sample_product : Product.t := Product.mk 1 "Ao thun" 200000 1.

(** A voucher of 50000 for the year 2024, good for two orders. *)
Definition sample_voucher : Voucher.t :=
  Voucher.mk 1 "SALE50" 50000
             "2024-01-01T00:00:00.000Z" "2024-12-31T23:59:59.000Z" 2 0 1.

Definition sample_db : Db := mkDb [sample_product] [] 0 [sample_voucher] 1.

(** Two shirts with the voucher, ordered on 1 June 2024 at the clock
    reading [now_ms]. *)
Definition sample_request (now_ms : Z) : OrderRequest.t :=
  OrderRequest.mk (Js.Str "An") (Js.Str "0901234567") (Js.Str "Ha Noi")
                  (Js.Num 1) Js.Undefined Js.Undefined (Js.Num 2) Js.Undefined
                  (Js.Str " sale50 ") "2024-06-01T10:00:00.000Z" now_ms.

Definition sample_clock : Z := 1717236000000.

(** The row of the first sample order and the store it leaves. *)
Definition sample_order : Order.t :=
  order_row (sample_request sample_clock) sample_product 50000 1.

Definition sample_db_after : Db := add_order sample_order (redeemed 1 sample_db).

(** The sample store with the voucher unlimited and used seven times. *)
Definition unlimited_voucher : Voucher.t :=
  Voucher.mk 1 "SALE50" 50000
             "2024-01-01T00:00:00.000Z" "2024-12-31T23:59:59.000Z" 0 7 1.

Definition unlimited_db : Db := mkDb [sample_product] [] 0 [unlimited_voucher] 1.


(** The time of the sample request, as the server reads it. *)
Definition sample_now : string := "2024-06-01T10:00:00.000Z".

(** The product of the sample store as the page holds it. *)
Definition sample_page_product : PageProduct.t :=
  PageProduct.mk 1 "Ao thun" Js.Undefined Js.Undefined 200000.

(** A filled order form; the phone is written in groups of digits. *)
Definition sample_form : OrderForm := mkOrderForm " An " "0901234567" "Ha Noi" "".

Definition spaced_form : OrderForm := mkOrderForm "An" "0912 345 678" "Ha Noi" "".

(** A cart of two variants of the sample product, both checked. *)
Definition sample_line (cartId color size : string) (qty : Z) : CartItem.t :=
  CartItem.mk cartId 1 "Ao thun" (Js.Str "SKU-0001") (Js.Str "shirt.jpg") 200000
              color size qty true.

Definition sample_cart : list CartItem.t :=
  [sample_line "c1" "Do" "M" 1; sample_line "c2" "Xanh" "L" 2].

(** The server handles request [k] of a checkout [k] milliseconds after
    the sample reading of the clock. *)
Definition sample_clocks (k : nat) : string * Z :=
  (sample_now, sample_clock + Z.of_nat k).

(* ================================================================== *)
(** ** The datastore statements *)

Lemma d1_bind_cases (params : list Js.value) (db : Db) :
  d1_bind params db = (Returned tt, db)
  \/ exists e, d1_bind params db = (Thrown e, db).
Proof.
  induction params as [|v params IH]; [now left|].
  destruct v; simpl; auto; right; eexists; reflexivity.
Qed.

Lemma redeem_voucher_result (voucher_code : Js.value) (now : string) (db : Db) :
  redeem_result voucher_code now db (redeem_voucher voucher_code now db).
Proof.
  unfold redeem_voucher, bind.
  destruct voucher_code as [| | b | n | s | fs]; simpl.
  - apply Redeem_no_code; [reflexivity | discriminate].
  - apply Redeem_no_code; [reflexivity | discriminate].
  - destruct b; simpl.
    + apply Redeem_type_error; [reflexivity | discriminate].
    + apply Redeem_no_code; [reflexivity | discriminate].
  - destruct (n =? 0) eqn:En; simpl.
    + apply Redeem_no_code; [reflexivity | simpl; rewrite En; discriminate].
    + apply Redeem_type_error; [simpl; now rewrite En | discriminate].
  - destruct (String.eqb s "") eqn:Es; simpl.
    + apply Redeem_no_code; [|eauto].
      apply String.eqb_eq in Es; subst s; reflexivity.
    + unfold ret at 1. fold (code_given (Js.Str s)).
      destruct (code_given (Js.Str s)) eqn:Eg; simpl.
      * unfold first_valid_voucher. fold (normalize s). fold (lookup (normalize s) now db).
        destruct (lookup (normalize s) now db) as [v|] eqn:El.
        -- fold (limit_reached v). destruct (limit_reached v) eqn:Elim.
           ++ eapply Redeem_limit; eauto.
           ++ unfold increment_used_count, ret. fold (redeemed (Voucher.id v) db).
              eapply Redeem_counted; eauto.
        -- eapply Redeem_invalid; eauto.
      * apply Redeem_no_code; [assumption | eauto].
  - apply Redeem_type_error; [reflexivity | discriminate].
Qed.

Lemma d1_bind_accepts (params : list Js.value) (db : Db) :
  forallb bindable params = true -> d1_bind params db = (Returned tt, db).
Proof.
  induction params as [|v params IH]; [reflexivity|].
  simpl. intros H. apply andb_true_iff in H as [Hv Hps].
  destruct v; try discriminate; simpl; auto.
Qed.

Lemma d1_bind_rejects (params : list Js.value) (db : Db) :
  forallb bindable params = false -> exists e, d1_bind params db = (Thrown e, db).
Proof.
  induction params as [|v params IH]; [discriminate|].
  simpl. intros H.
  destruct v; simpl in *; eauto; eexists; reflexivity.
Qed.

Lemma redeem_voucher_keeps_code (voucher_code : Js.value) (now : string)
      (db db1 : Db) (discount : Z) :
  redeem_voucher voucher_code now db = (Returned (inr discount), db1) ->
  Js.truthy voucher_code = true -> exists s, voucher_code = Js.Str s.
Proof.
  intros E. pose proof (redeem_voucher_result voucher_code now db) as R.
  rewrite E in R. inversion R; subst; eauto.
Qed.

Lemma stored_code_runs (voucher_code : Js.value) (db : Db) :
  (Js.truthy voucher_code = true -> exists s, voucher_code = Js.Str s) ->
  (if Js.truthy voucher_code
   then t <- js_trim "voucher_code" voucher_code ;; ret (JsString.toUpperCase t)
   else ret "") db
  = (Returned (stored_code voucher_code), db).
Proof.
  intros H. destruct (Js.truthy voucher_code) eqn:Et.
  - destruct H as [s ->]; reflexivity.
  - destruct voucher_code as [| | | |s|]; try reflexivity.
    destruct s; [reflexivity | discriminate].
Qed.

Lemma createOrder_result (req : OrderRequest.t) (db : Db) :
  order_result req db (createOrder req db).
Proof.
  destruct req as [cn cp ca pid color size quantity note vc now ms].
  unfold createOrder, try_catch. unfold bind at 1, initDB, ret at 1.
  destruct (required_given (OrderRequest.mk cn cp ca pid color size quantity note vc now ms))
    eqn:Ereq.
  2:{ assert (negb (Js.truthy cn) || negb (Js.truthy cp) || negb (Js.truthy ca)
              || negb (Js.truthy pid) = true) as ->.
      { unfold required_given in Ereq; simpl in Ereq.
        destruct (Js.truthy cn), (Js.truthy cp), (Js.truthy ca), (Js.truthy pid);
          simpl in *; congruence. }
      now apply Order_missing. }
  assert (negb (Js.truthy cn) || negb (Js.truthy cp) || negb (Js.truthy ca)
          || negb (Js.truthy pid) = false) as ->.
  { unfold required_given in Ereq; simpl in Ereq.
    destruct (Js.truthy cn), (Js.truthy cp), (Js.truthy ca), (Js.truthy pid);
      simpl in *; congruence. }
  unfold bind at 1, first_active_product. unfold bind at 1.
  destruct (bindable pid) eqn:Ebind.
  2:{ destruct (d1_bind_rejects [pid] db) as [e ->]; [simpl; now rewrite Ebind|].
      unfold ret. now apply Order_product_unbound. }
  rewrite d1_bind_accepts by (simpl; now rewrite Ebind).
  fold (find_product pid db).
  destruct (find_product pid db) as [p|] eqn:Ep.
  2:{ unfold ret. now apply Order_not_found. }
  unfold bind at 1.
  destruct (redeem_voucher vc now db) as [[[r|discount]|e] db1] eqn:Er.
  - pose proof (redeem_voucher_result vc now db) as R. rewrite Er in R.
    assert (db1 = db) as -> by (inversion R; reflexivity).
    unfold ret. eapply Order_voucher_rejected; eauto.
  - unfold bind at 1.
    rewrite stored_code_runs by (eapply redeem_voucher_keeps_code; eauto).
    unfold bind at 1, insert_order. unfold bind at 1.
    destruct (insertable (OrderRequest.mk cn cp ca pid color size quantity note vc now ms) db1)
      eqn:Eins.
    + unfold insertable in Eins; simpl in Eins.
      apply andb_true_iff in Eins as [Hb Hfresh].
      rewrite d1_bind_accepts by (simpl; simpl in Hb; exact Hb).
      apply negb_true_iff in Hfresh. rewrite Hfresh. unfold ret.
      apply (Order_created
               (OrderRequest.mk cn cp ca pid color size quantity note vc now ms)
               db p discount db1); auto.
      unfold insertable; simpl. rewrite Hfresh. simpl in Hb. now rewrite Hb.
    + unfold insertable in Eins; simpl in Eins.
      apply andb_false_iff in Eins as [Hb | Hfresh].
      * destruct (d1_bind_rejects
          [Js.Str (order_code_at ms); cn; cp; ca; pid; Js.Str (Product.name p);
           Js.Num (Product.price p); Js.or_else color (Js.Str "");
           Js.or_else size (Js.Str "");
           Js.Num (Js.num_or (Js.parseInt quantity) 1);
           Js.Num (order_total (Product.price p) (Js.num_or (Js.parseInt quantity) 1) discount);
           Js.Str (stored_code vc); Js.Num discount; Js.or_else note (Js.Str "")] db1)
          as [e He]; [simpl; simpl in Hb; exact Hb|].
        rewrite He. unfold ret.
        eapply Order_insert_failed; eauto.
        unfold insertable; simpl. simpl in Hb. now rewrite Hb.
      * apply negb_false_iff in Hfresh.
        destruct (d1_bind_cases
          [Js.Str (order_code_at ms); cn; cp; ca; pid; Js.Str (Product.name p);
           Js.Num (Product.price p); Js.or_else color (Js.Str "");
           Js.or_else size (Js.Str "");
           Js.Num (Js.num_or (Js.parseInt quantity) 1);
           Js.Num (order_total (Product.price p) (Js.num_or (Js.parseInt quantity) 1) discount);
           Js.Str (stored_code vc); Js.Num discount; Js.or_else note (Js.Str "")] db1)
          as [He | [e He]]; rewrite He.
        -- rewrite Hfresh. unfold ret.
           eapply Order_insert_failed; eauto.
           unfold insertable; simpl. rewrite Hfresh. apply andb_false_r.
        -- unfold ret. eapply Order_insert_failed; eauto.
           unfold insertable; simpl. rewrite Hfresh. apply andb_false_r.
  - pose proof (redeem_voucher_result vc now db) as R. rewrite Er in R.
    assert (db1 = db) as -> by (inversion R; reflexivity).
    unfold ret. eapply Order_voucher_thrown; eauto.
Qed.

Lemma createOrder_returns (req : OrderRequest.t) (db : Db) :
  exists r db', createOrder req db = (Returned r, db').
Proof.
  pose proof (createOrder_result req db) as R.
  inversion R; eauto.
Qed.



Ltac order_cases E :=
  match type of E with
  | createOrder ?req ?db = _ =>
      let R := fresh "R" in
      pose proof (createOrder_result req db) as R;
      rewrite E in R; inversion R; subst; clear R
  end.

Ltac redeem_cases :=
  match goal with
  | E : redeem_voucher ?vc ?now ?db = _ |- _ =>
      let R := fresh "R" in
      pose proof (redeem_voucher_result vc now db) as R;
      rewrite E in R; inversion R; subst; clear R
  end.

(* ================================================================== *)
(** ** The validate route reads only *)

(** C8.  [POST /api/vouchers/validate] performs no write: for every body
    field [code], every clock reading and every datastore, the handler
    returns a response and leaves the datastore (products, orders and
    vouchers, [used_count] included) exactly as it found it. *)
Theorem validateVoucher_reads_only (code : Js.value) (now : string) (db : Db) :
  exists r, validateVoucher code now db = (Returned r, db).
Proof.
  unfold validateVoucher, try_catch, bind, initDB, ret.
  destruct (Js.truthy code) eqn:Et; simpl; [|eauto].
  destruct code as [| | b | n | s | fs]; simpl in *; try discriminate; eauto.
  unfold first_valid_voucher.
  destruct (find _ _) as [v|]; eauto.
  destruct (_ && _); eauto.
Qed.

(* ================================================================== *)
(** ** Validation failures of the order route *)


(* ================================================================== *)
(** ** Replies of the order route *)


(* ================================================================== *)
(** ** Reading a number from its decimal text *)












(* ================================================================== *)
(** ** Pricing and quantity *)

Lemma order_total_nonneg (price qty discount : Z) :
  0 <= order_total price qty discount.
Proof. unfold order_total. lia. Qed.



(* ================================================================== *)
(** ** Looking a voucher up *)

Lemma NoDup_map_inj {A B : Type} (f : A -> B) (l : list A) (a b : A) :
  NoDup (map f l) -> In a l -> In b l -> f a = f b -> a = b.
Proof.
  induction l as [|x l IH]; simpl; [tauto|].
  intros Hnd Ha Hb Hf. inversion Hnd as [|? ? Hx Hl]; subst.
  destruct Ha as [->|Ha], Hb as [->|Hb]; auto.
  - exfalso. apply Hx. rewrite Hf. now apply in_map.
  - exfalso. apply Hx. rewrite <- Hf. now apply in_map.
Qed.

Lemma voucher_matches_valid_at (code now : string) (v : Voucher.t) :
  voucher_matches code now v = true <-> valid_at code now v.
Proof.
  unfold voucher_matches, valid_at.
  rewrite !andb_true_iff, String.eqb_eq, Z.eqb_eq. tauto.
Qed.


Lemma lookup_unique (code now : string) (db : Db) (v : Voucher.t) :
  NoDup (map Voucher.code (vouchers db)) ->
  In v (vouchers db) ->
  valid_at code now v ->
  lookup code now db = Some v.
Proof.
  intros Hnd Hin Hv. unfold lookup.
  destruct (find _ _) as [w|] eqn:Ef.
  - apply find_some in Ef as [Hw Hm].
    apply voucher_matches_valid_at in Hm.
    f_equal. apply (NoDup_map_inj Voucher.code (vouchers db)); auto.
    destruct Hm as [-> _], Hv as [-> _]. reflexivity.
  - apply voucher_matches_valid_at in Hv.
    pose proof (find_none _ _ Ef v Hin). congruence.
Qed.

(** The reply of the validate route to a voucher that passes. *)
Lemma validateVoucher_string (s : string) (now : string) (db : Db) :
  s <> "" ->
  validateVoucher (Js.Str s) now db
  = (Returned
       match lookup (normalize s) now db with
       | None => json (failure "INVALID_VOUCHER") 400
       | Some v =>
           if limit_reached v then json (failure "VOUCHER_LIMIT") 400
           else json [("success", Js.Bool true);
                      ("data", Js.Obj [("id", Js.Num (Voucher.id v));
                                       ("code", Js.Str (Voucher.code v));
                                       ("discount_amount",
                                        Js.Num (Voucher.discount_amount v))])] 200
       end, db).
Proof.
  intros Hs. apply String.eqb_neq in Hs.
  unfold validateVoucher, try_catch, bind, initDB, ret. simpl. rewrite Hs. simpl.
  unfold first_valid_voucher. fold (normalize s). fold (lookup (normalize s) now db).
  destruct (lookup (normalize s) now db) as [v|]; [|reflexivity].
  fold (limit_reached v). destruct (limit_reached v); reflexivity.
Qed.

(* ================================================================== *)
(** ** Unlimited vouchers *)

(** C5.  A voucher with [usage_limit = 0] that is active and within its
    validity window at [now] never draws VOUCHER_LIMIT, whatever its
    [used_count]: neither from the validate route nor from the order route,
    for any code that normalizes to the code of the voucher. *)
Theorem unlimited_voucher_never_limited
    (db : Db) (v : Voucher.t) (s now : string) :
  NoDup (map Voucher.code (vouchers db)) ->
  In v (vouchers db) ->
  Voucher.usage_limit v = 0 ->
  valid_at (normalize s) now v ->
  (forall r db',
      validateVoucher (Js.Str s) now db = (Returned r, db') ->
      r <> json (failure "VOUCHER_LIMIT") 400)
  /\ (forall req r db',
         OrderRequest.voucher_code req = Js.Str s ->
         OrderRequest.now_iso req = now ->
         createOrder req db = (Returned r, db') ->
         r <> json (failure "VOUCHER_LIMIT") 400).
Proof.
  intros Hnd Hin Hlim Hv.
  pose proof (lookup_unique _ _ _ _ Hnd Hin Hv) as Hl.
  assert (Hnot : limit_reached v = false).
  { unfold limit_reached. rewrite Hlim. reflexivity. }
  split.
  - intros r db' E.
    destruct (String.eqb_spec s "") as [->|Hs].
    + vm_compute in E. inversion E. discriminate.
    + rewrite (validateVoucher_string s now db Hs), Hl, Hnot in E.
      inversion E. discriminate.
  - intros req r db' Hs Hnow E. subst now.
    order_cases E; try discriminate.
    rewrite Hs in *. redeem_cases; try discriminate. congruence.
Qed.

(* ================================================================== *)
(** ** INVALID_VOUCHER *)

Lemma normalized_code_given (s : string) :
  normalize s = s -> s <> "" -> code_given (Js.Str s) = true.
Proof.
  intros Hn Hs. simpl. apply negb_true_iff, String.eqb_neq.
  intros Ht. apply Hs. rewrite <- Hn. unfold normalize. now rewrite Ht.
Qed.



(* ================================================================== *)
(** ** Normalizing a code *)

Lemma is_space_upper_char (c : ascii) :
  JsString.is_space (JsString.upper_char c) = JsString.is_space c.
Proof.
  destruct c as [b0 b1 b2 b3 b4 b5 b6 b7].
  destruct b0, b1, b2, b3, b4, b5, b6, b7; reflexivity.
Qed.

Lemma upper_char_idem (c : ascii) :
  JsString.upper_char (JsString.upper_char c) = JsString.upper_char c.
Proof.
  destruct c as [b0 b1 b2 b3 b4 b5 b6 b7].
  destruct b0, b1, b2, b3, b4, b5, b6, b7; reflexivity.
Qed.

Lemma toUpperCase_idem (s : string) :
  JsString.toUpperCase (JsString.toUpperCase s) = JsString.toUpperCase s.
Proof.
  induction s as [|c s IH]; simpl; [reflexivity|].
  now rewrite upper_char_idem, IH.
Qed.

Lemma toUpperCase_empty (s : string) :
  JsString.toUpperCase s = "" <-> s = "".
Proof. destruct s; simpl; split; intros H; try reflexivity; discriminate H. Qed.

Lemma trimStart_toUpperCase (s : string) :
  JsString.trimStart (JsString.toUpperCase s)
  = JsString.toUpperCase (JsString.trimStart s).
Proof.
  induction s as [|c s IH]; simpl; [reflexivity|].
  rewrite is_space_upper_char. destruct (JsString.is_space c); auto.
Qed.

Lemma trimEnd_toUpperCase (s : string) :
  JsString.trimEnd (JsString.toUpperCase s)
  = JsString.toUpperCase (JsString.trimEnd s).
Proof.
  induction s as [|c s IH]; simpl; [reflexivity|].
  rewrite IH. destruct (JsString.trimEnd s); simpl.
  - rewrite is_space_upper_char. destruct (JsString.is_space c); reflexivity.
  - reflexivity.
Qed.

Lemma trimStart_idem (s : string) :
  JsString.trimStart (JsString.trimStart s) = JsString.trimStart s.
Proof.
  induction s as [|c s IH]; simpl; [reflexivity|].
  destruct (JsString.is_space c) eqn:Ec; [exact IH|].
  simpl. now rewrite Ec.
Qed.

Lemma trimEnd_idem (s : string) :
  JsString.trimEnd (JsString.trimEnd s) = JsString.trimEnd s.
Proof.
  induction s as [|c s IH]; simpl; [reflexivity|].
  destruct (JsString.trimEnd s) as [|a t] eqn:Et.
  - destruct (JsString.is_space c) eqn:Ec; simpl; [reflexivity|now rewrite Ec].
  - change (JsString.trimEnd (String c (String a t)))
      with (match JsString.trimEnd (String a t) with
            | EmptyString =>
                if JsString.is_space c then EmptyString else String c EmptyString
            | String x y => String c (String x y)
            end).
    now rewrite IH.
Qed.

Lemma trimStart_trimEnd (s : string) :
  JsString.trimStart (JsString.trimEnd s) = JsString.trimEnd (JsString.trimStart s).
Proof.
  induction s as [|c s IH]; simpl; [reflexivity|].
  destruct (JsString.is_space c) eqn:Ec.
  - rewrite <- IH. destruct (JsString.trimEnd s); simpl; [reflexivity|].
    now rewrite Ec.
  - simpl. destruct (JsString.trimEnd s); simpl; now rewrite Ec.
Qed.

Lemma trim_idem (s : string) : JsString.trim (JsString.trim s) = JsString.trim s.
Proof.
  unfold JsString.trim.
  now rewrite trimStart_trimEnd, trimStart_idem, trimEnd_idem.
Qed.

Lemma trim_toUpperCase (s : string) :
  JsString.trim (JsString.toUpperCase s) = JsString.toUpperCase (JsString.trim s).
Proof.
  unfold JsString.trim. now rewrite trimStart_toUpperCase, trimEnd_toUpperCase.
Qed.

Lemma normalize_idem (s : string) : normalize (normalize s) = normalize s.
Proof.
  unfold normalize. now rewrite trim_toUpperCase, trim_idem, toUpperCase_idem.
Qed.

Lemma code_given_normalize (s : string) :
  code_given (Js.Str (normalize s)) = code_given (Js.Str s).
Proof.
  unfold normalize. simpl. rewrite trim_toUpperCase, trim_idem. f_equal.
  destruct (String.eqb_spec (JsString.trim s) "") as [->|Hn]; [reflexivity|].
  apply String.eqb_neq. now rewrite toUpperCase_empty.
Qed.

Lemma redeem_voucher_string (s now : string) (db : Db) :
  redeem_voucher (Js.Str s) now db
  = if code_given (Js.Str s)
    then match lookup (normalize s) now db with
         | None => (Returned (inl (json (failure "INVALID_VOUCHER") 400)), db)
         | Some v =>
             if limit_reached v
             then (Returned (inl (json (failure "VOUCHER_LIMIT") 400)), db)
             else (Returned (inr (Voucher.discount_amount v)),
                   redeemed (Voucher.id v) db)
         end
    else (Returned (inr 0), db).
Proof.
  pose proof (redeem_voucher_result (Js.Str s) now db) as R.
  inversion R as [e Ht Hn | Hg Ht | s0 Hs Hg Hl | s0 v Hs Hg Hl Hlim
                  | s0 v Hs Hg Hl Hlim].
  - exfalso. now apply (Hn s).
  - now rewrite Hg.
  - inversion Hs; subst s0. now rewrite Hg, Hl.
  - inversion Hs; subst s0. now rewrite Hg, Hl, Hlim.
  - inversion Hs; subst s0. now rewrite Hg, Hl, Hlim.
Qed.



(* ================================================================== *)
(** ** Case and white space of a code *)


(* ================================================================== *)
(** ** One redemption *)







Lemma lookup_code (code now : string) (db : Db) (v : Voucher.t) :
  lookup code now db = Some v -> In v (vouchers db) /\ valid_at code now v.
Proof.
  unfold lookup. intros H. apply find_some in H as [Hin Hm].
  split; [exact Hin | now apply voucher_matches_valid_at].
Qed.











(* ================================================================== *)
(** ** A run that uses a voucher up *)







(* ================================================================== *)
(** ** The operations that touch a voucher keep the limit *)

Lemma validateVoucher_state (code : Js.value) (now : string) (db : Db) :
  snd (validateVoucher code now db) = db.
Proof.
  unfold validateVoucher, try_catch, bind, initDB, ret.
  destruct (Js.truthy code) eqn:Et; simpl; [|reflexivity].
  destruct code as [| | b | n | s | fs]; simpl in *; try discriminate; try reflexivity.
  unfold first_valid_voucher.
  destruct (find _ _) as [v|]; [|reflexivity].
  destruct (_ && _); reflexivity.
Qed.

Lemma NoDup_map_filter {A B : Type} (f : A -> B) (keep : A -> bool) (l : list A) :
  NoDup (map f l) -> NoDup (map f (filter keep l)).
Proof.
  induction l as [|a l IH]; simpl; [auto|].
  intros Hnd. inversion Hnd as [|? ? Hnot Hnd']; subst.
  destruct (keep a); simpl; [|auto].
  constructor; [|auto].
  intros Hin. apply Hnot. apply in_map_iff in Hin as (x & Hx & Hin).
  apply filter_In in Hin as [Hin _]. rewrite <- Hx. now apply in_map.
Qed.

Lemma Forall_filter {A : Type} (P : A -> Prop) (keep : A -> bool) (l : list A) :
  Forall P l -> Forall P (filter keep l).
Proof.
  rewrite !Forall_forall. intros H x Hx. apply filter_In in Hx as [Hx _]. auto.
Qed.







(* ================================================================== *)
(** ** The increment and the order insert *)


(* ================================================================== *)
(** ** Switching a voucher off, deleting it, inserting one *)

Lemma toggleVoucher_state (id : string) (db : Db) :
  snd (toggleVoucher id db)
  = set_vouchers (map (fun v => if key_eq (Js.Str id) (Voucher.id v)
                                then Voucher.flip v else v)) db.
Proof. reflexivity. Qed.





(** X2.  The toggle route is its own inverse on rows whose [is_active] is
    0 or 1: two toggles of the same id give the datastore back.  Whatever
    [is_active] was, it is 0 or 1 in every row the id matches after one
    toggle. *)
Theorem toggleVoucher_twice (db : Db) (id : string) :
  Forall (fun v => key_eq (Js.Str id) (Voucher.id v) = true ->
                   Voucher.is_active v = 0 \/ Voucher.is_active v = 1)
         (vouchers (snd (toggleVoucher id db)))
  /\ (Forall (fun v => key_eq (Js.Str id) (Voucher.id v) = true ->
                       Voucher.is_active v = 0 \/ Voucher.is_active v = 1)
             (vouchers db) ->
      snd (toggleVoucher id (snd (toggleVoucher id db))) = db).
Proof.
  split.
  - rewrite toggleVoucher_state. simpl. apply Forall_map, Forall_forall.
    intros v _. destruct (key_eq (Js.Str id) (Voucher.id v)) eqn:Hk.
    + intros _. simpl. destruct (Voucher.is_active v =? 1); auto.
    + intros H. congruence.
  - intros Hflags. rewrite !toggleVoucher_state.
    destruct db as [ps os oseq vs vseq]. unfold set_vouchers; simpl in *.
    f_equal. rewrite map_map. rewrite <- (map_id vs) at 2.
    apply map_ext_in. intros v Hv. rewrite Forall_forall in Hflags.
    specialize (Hflags v Hv).
    destruct (key_eq (Js.Str id) (Voucher.id v)) eqn:Hk; [|now rewrite Hk].
    simpl. rewrite Hk. destruct v as [i c d f t l u a]; simpl in *.
    unfold Voucher.flip; simpl.
    destruct (Hflags eq_refl) as [-> | ->]; reflexivity.
Qed.


Lemma find_app_fresh {A : Type} (f : A -> bool) (l : list A) (a : A) :
  (forall x, In x l -> f x = false) -> f a = true ->
  find f (l ++ [a])%list = Some a.
Proof.
  induction l as [|x l IH]; simpl; intros Hl Ha.
  - now rewrite Ha.
  - rewrite (Hl x) by auto. apply IH; auto.
Qed.

(** X4.  A voucher whose INSERT went through is accepted by the validate
    route, under its code in any case and with any white space around it,
    at every time of its window, whatever its [usage_limit]: the row
    starts with [used_count = 0] and [is_active = 1].  The reply carries
    the new id, the stored code and the discount.  The two dates bound to
    the INSERT and [now] are texts the datastore keeps as text, as the ISO
    text the admin page sends is (a date that reads as a number, such as
    [2025], is stored as a number and sorts below [now]); the code typed
    is of the ASCII range and the discount a safe integer. *)
Theorem inserted_voucher_accepted
    (db : Db) (code : string) (discount : Z) (valid_from valid_to : string)
    (limit : Z) (s now : string) :
  kept_as_text valid_from = true ->
  kept_as_text valid_to = true ->
  kept_as_text now = true ->
  ascii_only s = true ->
  safe_integer discount ->
  existsb (fun v => String.eqb (Voucher.code v) code) (vouchers db) = false ->
  normalize s = code ->
  s <> "" ->
  String.leb valid_from now = true ->
  String.leb now valid_to = true ->
  validateVoucher (Js.Str s) now
    (snd (insert_voucher code discount valid_from valid_to limit db))
  = (Returned (json [("success", Js.Bool true);
                     ("data", Js.Obj [("id", Js.Num (vouchers_seq db + 1));
                                      ("code", Js.Str code);
                                      ("discount_amount", Js.Num discount)])] 200),
     snd (insert_voucher code discount valid_from valid_to limit db)).
Proof.
  intros _ _ _ _ _ Hfresh Hn Hs Hfrom Hto.
  rewrite (validateVoucher_string s now _ Hs).
  unfold insert_voucher. rewrite Hfresh. simpl.
  unfold lookup. simpl. rewrite Hn.
  rewrite find_app_fresh.
  - unfold limit_reached. simpl.
    destruct (0 <? limit) eqn:Hl; simpl; [|reflexivity].
    apply Z.ltb_lt in Hl.
    destruct (limit <=? 0) eqn:Hl0; [apply Z.leb_le in Hl0; lia | reflexivity].
  - intros w Hw. unfold voucher_matches.
    destruct (String.eqb (Voucher.code w) code) eqn:Hc; [|reflexivity].
    exfalso.
    assert (existsb (fun v => String.eqb (Voucher.code v) code) (vouchers db) = true)
      as Hex; [|congruence].
    apply existsb_exists. eauto.
  - unfold voucher_matches. simpl. now rewrite String.eqb_refl, Hfrom, Hto.
Qed.

(* ================================================================== *)
(** ** Products that can no longer be ordered *)

Lemma createOrder_not_found (req : OrderRequest.t) (db : Db) :
  required_given req = true ->
  bindable (OrderRequest.product_id req) = true ->
  find_product (OrderRequest.product_id req) db = None ->
  createOrder req db = (Returned (json (failure "Product not found") 404), db).
Proof.
  intros Hreq Hb Hp.
  destruct (createOrder_returns req db) as (r & db' & E). rewrite E.
  order_cases E; congruence.
Qed.

(** X5.  After the delete route has removed a product, and after the
    toggle route has switched an active product off, an order for that
    product is answered [Product not found] with status 404 and writes
    nothing, whatever else the request carries. *)
Theorem unavailable_product_not_ordered
    (db : Db) (id : string) (req : OrderRequest.t) :
  (forall i, key_eq (OrderRequest.product_id req) i = key_eq (Js.Str id) i) ->
  required_given req = true ->
  bindable (OrderRequest.product_id req) = true ->
  createOrder req (snd (deleteProduct id db))
  = (Returned (json (failure "Product not found") 404), snd (deleteProduct id db))
  /\ (Forall (fun p => key_eq (Js.Str id) (Product.id p) = true ->
                       Product.is_active p = 1) (products db) ->
      createOrder req (snd (toggleProduct id db))
      = (Returned (json (failure "Product not found") 404),
         snd (toggleProduct id db))).
Proof.
  intros Hsame Hreq Hb. split.
  - apply createOrder_not_found; auto.
    unfold find_product. simpl.
    destruct (find _ _) as [p|] eqn:Ef; [|reflexivity].
    apply find_some in Ef as [Hin Hm]. apply filter_In in Hin as [_ Hkeep].
    rewrite Hsame in Hm. destruct (key_eq (Js.Str id) (Product.id p)); discriminate.
  - intros Hact. apply createOrder_not_found; auto.
    unfold find_product. simpl.
    destruct (find _ _) as [p'|] eqn:Ef; [|reflexivity].
    apply find_some in Ef as [Hin Hm]. apply in_map_iff in Hin as (p & Hg & Hin).
    rewrite Forall_forall in Hact. specialize (Hact p Hin).
    rewrite Hsame in Hm.
    destruct (key_eq (Js.Str id) (Product.id p)) eqn:Hk; subst p'.
    + simpl in Hm. rewrite Hk, (Hact eq_refl) in Hm. discriminate.
    + rewrite Hk in Hm. discriminate.
Qed.

(* ================================================================== *)
(** ** Orders and the dashboard *)

Lemma num_or_count (n : Z) : Js.num_or (Some n) 0 = n.
Proof. simpl. destruct (Z.eqb_spec n 0); congruence. Qed.

Lemma num_or_sum (rows : list Order.t) :
  Js.num_or (sql_sum rows) 0 = sum_total_price rows.
Proof. destruct rows; [reflexivity|]. apply num_or_count. Qed.

Lemma sum_counted (rows : list Order.t) :
  sum_total_price
    (filter (fun o => negb (String.eqb (Order.status o) "cancelled")) rows)
  = fold_right (fun o acc => counted_total o + acc) 0 rows.
Proof.
  induction rows as [|o rows IH]; [reflexivity|]. simpl. unfold counted_total at 1.
  destruct (String.eqb (Order.status o) "cancelled"); simpl; rewrite <- IH;
    [reflexivity | reflexivity].
Qed.

Lemma revenue_counted (db : Db) :
  revenue (adminStats db)
  = fold_right (fun o acc => counted_total o + acc) 0 (orders db).
Proof. unfold adminStats. cbn [revenue]. now rewrite num_or_sum, sum_counted. Qed.

Lemma totalOrders_count (db : Db) :
  totalOrders (adminStats db) = Z.of_nat (List.length (orders db)).
Proof. unfold adminStats. cbn [totalOrders]. apply num_or_count. Qed.

Lemma pendingOrders_count (db : Db) :
  pendingOrders (adminStats db)
  = Z.of_nat (List.length (filter (fun o => String.eqb (Order.status o) "pending")
                                  (orders db))).
Proof. unfold adminStats. cbn [pendingOrders]. apply num_or_count. Qed.









Lemma NoDup_snoc {A : Type} (l : list A) (a : A) :
  NoDup l -> ~ In a l -> NoDup (l ++ [a]).
Proof.
  intros Hl Ha. apply NoDup_app; [exact Hl | repeat constructor; intros [] |].
  intros x Hx [<- | []]. contradiction.
Qed.

Lemma orders_ok_same (db db' : Db) :
  orders db' = orders db -> orders_seq db' = orders_seq db ->
  orders_ok db -> orders_ok db'.
Proof. unfold orders_ok. intros -> ->. auto. Qed.

Lemma redeem_voucher_orders (voucher_code : Js.value) (now : string) (db db1 : Db)
    (r : outcome (Response + Z)) :
  redeem_voucher voucher_code now db = (r, db1) ->
  orders db1 = orders db /\ orders_seq db1 = orders_seq db.
Proof. intros E. redeem_cases; split; reflexivity. Qed.

Lemma createOrder_orders_ok (req : OrderRequest.t) (db : Db) :
  orders_ok db ->
  orders_ok (snd (createOrder req db))
  /\ orders_seq db <= orders_seq (snd (createOrder req db)).
Proof.
  intros Hok. destruct (createOrder req db) as [r db'] eqn:E. simpl.
  order_cases E; try (split; [assumption | lia]).
  all: match goal with
       | Hr : redeem_voucher _ _ _ = (Returned (inr _), _) |- _ =>
           destruct (redeem_voucher_orders _ _ _ _ _ Hr) as [Ho Hs]
       end.
  - split; [now apply (orders_ok_same db) | lia].
  - match goal with
    | Hi : insertable _ _ = true |- _ =>
        unfold insertable in Hi; apply andb_prop in Hi as [_ Hfresh];
        apply negb_true_iff in Hfresh
    end.
    destruct Hok as (Hid & Hcode & Hall).
    rewrite Forall_forall in Hall.
    unfold orders_ok. simpl orders. simpl orders_seq. rewrite Ho, Hs.
    split; [|simpl; lia]. split; [|split].
    + rewrite map_app. simpl. apply NoDup_snoc; [exact Hid|].
      intros Hin. apply in_map_iff in Hin as (o' & Hsame & Hin').
      apply Hall in Hin'. subst o. simpl in Hsame. lia.
    + rewrite map_app. simpl. apply NoDup_snoc; [exact Hcode|].
      intros Hin. apply in_map_iff in Hin as (o' & Hsame & Hin').
      rewrite Ho in Hfresh.
      assert (Hex : existsb (fun o0 => String.eqb (Order.order_code o0)
                                         (order_code_at (OrderRequest.now_ms req)))
                            (orders db) = true).
      { apply existsb_exists. exists o'. split; [exact Hin'|].
        apply String.eqb_eq. rewrite Hsame. subst o. reflexivity. }
      congruence.
    + apply Forall_forall. intros o' Hin. apply in_app_or in Hin as [Hin | [<- | []]].
      * apply Hall in Hin. subst o. simpl. lia.
      * subst o. simpl. split; [lia | apply order_total_nonneg].
Qed.

Lemma updateOrderStatus_orders_ok (id status : string) (db : Db) :
  orders_ok db -> orders_ok (snd (updateOrderStatus id status db)).
Proof.
  intros (Hid & Hcode & Hall).
  set (g := fun o : Order.t =>
              if key_eq (Js.Str id) (Order.id o) then with_status status o else o).
  assert (Hdb : orders (snd (updateOrderStatus id status db)) = map g (orders db))
    by reflexivity.
  assert (Hseq : orders_seq (snd (updateOrderStatus id status db)) = orders_seq db)
    by reflexivity.
  assert (Hg : forall o, Order.id (g o) = Order.id o
                         /\ Order.order_code (g o) = Order.order_code o
                         /\ Order.total_price (g o) = Order.total_price o).
  { intros o. unfold g. destruct (key_eq (Js.Str id) (Order.id o)); auto. }
  unfold orders_ok. rewrite Hdb, Hseq, !map_map. split; [|split].
  - rewrite (map_ext _ Order.id); [exact Hid | intros o; apply Hg].
  - rewrite (map_ext _ Order.order_code); [exact Hcode | intros o; apply Hg].
  - apply Forall_forall. intros o' Hin. apply in_map_iff in Hin as (o & <- & Hin).
    rewrite Forall_forall in Hall. apply Hall in Hin.
    destruct (Hg o) as (-> & _ & ->). exact Hin.
Qed.

Lemma deleteOrder_orders_ok (id : string) (db : Db) :
  orders_ok db -> orders_ok (snd (deleteOrder id db)).
Proof.
  intros (Hid & Hcode & Hall). unfold orders_ok.
  change (orders (snd (deleteOrder id db)))
    with (filter (fun o => negb (key_eq (Js.Str id) (Order.id o))) (orders db)).
  change (orders_seq (snd (deleteOrder id db))) with (orders_seq db).
  split; [|split].
  - now apply NoDup_map_filter.
  - now apply NoDup_map_filter.
  - now apply Forall_filter.
Qed.

Lemma perform_any_orders_ok (op : Operation + AdminOperation) (db : Db) :
  orders_ok db ->
  orders_ok (perform_any op db) /\ orders_seq db <= orders_seq (perform_any op db).
Proof.
  intros Hok. destruct op as [[req | code now | id | id | code d from to limit]
                             | [id | id | id status | id]]; simpl.
  - now apply createOrder_orders_ok.
  - rewrite validateVoucher_state. split; [assumption | lia].
  - split; [now apply (orders_ok_same db) | reflexivity].
  - split; [now apply (orders_ok_same db) | reflexivity].
  - split; [|].
    + apply (orders_ok_same db); trivial;
        unfold insert_voucher; destruct (existsb _ _); reflexivity.
    + unfold insert_voucher; destruct (existsb _ _); simpl; lia.
  - split; [now apply (orders_ok_same db) | reflexivity].
  - split; [now apply (orders_ok_same db) | reflexivity].
  - split; [now apply updateOrderStatus_orders_ok | reflexivity].
  - split; [now apply deleteOrder_orders_ok | reflexivity].
Qed.

Lemma counted_nonneg (rows : list Order.t) :
  Forall (fun o => 0 <= Order.total_price o) rows ->
  0 <= fold_right (fun o acc => counted_total o + acc) 0 rows.
Proof.
  induction 1 as [|o l Ho _ IH]; simpl; [lia|].
  unfold counted_total at 1. destruct (String.eqb _ _); lia.
Qed.

(** X9.  Whatever requests the modelled routes serve one after the other
    (orders, voucher validation and administration, product and order
    administration), the orders table stays consistent: order ids and
    order codes remain unique, no order has an id above the AUTOINCREMENT
    counter, which never goes down (the id of a deleted order is not given
    to a later one), totals are not negative, and the dashboard never
    shows a negative revenue or more pending orders than orders. *)
Theorem orders_kept_consistent (ops : list (Operation + AdminOperation)) (db : Db) :
  orders_ok db ->
  orders_ok (perform_all ops db)
  /\ orders_seq db <= orders_seq (perform_all ops db)
  /\ 0 <= revenue (adminStats (perform_all ops db))
  /\ pendingOrders (adminStats (perform_all ops db))
     <= totalOrders (adminStats (perform_all ops db)).
Proof.
  intros Hok.
  assert (Hrun : orders_ok (perform_all ops db)
                 /\ orders_seq db <= orders_seq (perform_all ops db)).
  { revert db Hok. induction ops as [|op ops IH]; intros db Hok.
    - split; [assumption | simpl; lia].
    - destruct (perform_any_orders_ok op db Hok) as [Hok1 Hseq1].
      destruct (IH _ Hok1) as [Hok2 Hseq2].
      unfold perform_all in *. simpl. split; [assumption | lia]. }
  destruct Hrun as [Hok' Hseq]. split; [assumption|]. split; [assumption|].
  destruct Hok' as (_ & _ & Hall). split.
  - rewrite revenue_counted. apply counted_nonneg.
    eapply Forall_impl; [|exact Hall]. simpl. intros o [_ H]. exact H.
  - rewrite pendingOrders_count, totalOrders_count. unfold sql_count.
    apply inj_le. apply filter_length_le.
Qed.

(* ================================================================== *)
(** ** Order codes *)

Lemma digit36_upper (d : Z) :
  0 <= d < 36 ->
  JsString.digit_of 36 (JsString.upper_char (JsString.digit36 d)) = Some d.
Proof.
  intros Hd.
  assert (H : exists k, (k < 36)%nat /\ d = Z.of_nat k).
  { exists (Z.to_nat d). split; lia. }
  destruct H as (k & Hk & ->). clear Hd.
  do 36 (destruct k as [|k]; [reflexivity|]). lia.
Qed.

Lemma to_radix36_digits (fuel : nat) :
  forall n acc,
    (1 <= fuel)%nat -> 0 <= n < 36 ^ Z.of_nat fuel ->
    JsString.digits 36 (JsString.toUpperCase (JsString.to_radix36 fuel n acc)) None
    = JsString.digits 36 (JsString.toUpperCase acc) (Some n).
Proof.
  induction fuel as [|fuel IH]; intros n acc Hf Hn; [lia|].
  cbn [JsString.to_radix36].
  assert (Hm : 0 <= n mod 36 < 36) by (apply Z.mod_pos_bound; lia).
  destruct ((n / 36 =? 0)%Z) eqn:Eq.
  - apply Z.eqb_eq in Eq.
    cbn [JsString.toUpperCase JsString.digits]. rewrite (digit36_upper _ Hm).
    f_equal. f_equal. pose proof (Z.div_mod n 36). lia.
  - apply Z.eqb_neq in Eq.
    assert (Hq : 1 <= n / 36 < 36 ^ Z.of_nat fuel).
    { split; [pose proof (Z.div_pos n 36); lia|].
      apply Z.div_lt_upper_bound; [lia|].
      replace (Z.of_nat (S fuel)) with (Z.succ (Z.of_nat fuel)) in Hn by lia.
      rewrite Z.pow_succ_r in Hn; lia. }
    assert (Hfuel : (1 <= fuel)%nat).
    { destruct fuel; [simpl in Hq; lia | lia]. }
    rewrite IH by (auto; lia).
    cbn [JsString.toUpperCase JsString.digits]. rewrite (digit36_upper _ Hm).
    f_equal. f_equal. pose proof (Z.div_mod n 36). lia.
Qed.

Lemma toString36_round_trip (n : Z) :
  0 <= n ->
  JsString.digits 36 (JsString.toUpperCase (JsString.toString36 n)) None = Some n.
Proof.
  intros Hn. unfold JsString.toString36.
  replace ((n <? 0)%Z) with false by (symmetry; apply Z.ltb_ge; lia).
  rewrite to_radix36_digits; [reflexivity | lia |].
  split; [lia|].
  replace (Z.of_nat (S (Z.to_nat (Z.log2 n)))) with (Z.succ (Z.log2 n))
    by (pose proof (Z.log2_nonneg n); lia).
  destruct (Z.eq_dec n 0) as [-> | Hz]; [reflexivity|].
  destruct (Z.log2_spec n) as [_ Hup]; [lia|].
  eapply Z.lt_le_trans; [exact Hup|].
  apply Z.pow_le_mono_l. pose proof (Z.log2_nonneg n). lia.
Qed.

Lemma order_code_at_inj (a b : Z) :
  0 <= a -> 0 <= b -> order_code_at a = order_code_at b -> a = b.
Proof.
  intros Ha Hb E. unfold order_code_at in E. simpl in E.
  inversion E as [E']. pose proof (toString36_round_trip a Ha) as Ra.
  rewrite E', (toString36_round_trip b Hb) in Ra. congruence.
Qed.

(** X10.  The order code keeps the clock reading it was made from: after
    the prefix [FS] come the base-36 digits of [Date.now()], from which the
    reading is read back; so two orders get the same code only when they
    are made at the same millisecond. *)
Theorem order_code_determines_time (a : Z) :
  0 <= a ->
  (exists body, order_code_at a = String.append "FS" body
                /\ JsString.digits 36 body None = Some a)
  /\ (forall b, 0 <= b -> order_code_at a = order_code_at b -> a = b).
Proof.
  intros Ha. split.
  - exists (JsString.toUpperCase (JsString.toString36 a)).
    split; [reflexivity | now apply toString36_round_trip].
  - intros b Hb. now apply order_code_at_inj.
Qed.

(** X11.  Once an order has been created at some reading of the clock, no
    further request served at the same reading creates an order: its code
    would be the one already stored, which the UNIQUE constraint refuses.
    The reply is a failure and the orders table is left as it was. *)
Theorem same_millisecond_refused
    (req req' : OrderRequest.t) (db db' : Db) (r : Response) :
  createOrder req db = (Returned r, db') ->
  status r = 200 ->
  OrderRequest.now_ms req' = OrderRequest.now_ms req ->
  exists r',
    fst (createOrder req' db') = Returned r'
    /\ status r' <> 200
    /\ orders (snd (createOrder req' db')) = orders db'.
Proof.
  intros E Hok Hms.
  assert (Hin : exists o, In o (orders db')
                          /\ Order.order_code o = order_code_at (OrderRequest.now_ms req)).
  { order_cases E; try discriminate Hok.
    - redeem_cases; discriminate Hok.
    - exists o. split; [simpl; apply in_or_app; right; now left | reflexivity]. }
  destruct Hin as (o & Hin & Hcode). clear E Hok.
  destruct (createOrder req' db') as [out db''] eqn:E'. simpl.
  order_cases E';
    try (eexists; split; [reflexivity|]; split; [simpl; discriminate | reflexivity]).
  - redeem_cases; eexists; (split; [reflexivity|]);
      (split; [simpl; discriminate | reflexivity]).
  - eexists. split; [reflexivity|]. split; [simpl; discriminate|].
    match goal with
    | Hr : redeem_voucher _ _ _ = (Returned (inr _), _) |- _ =>
        now destruct (redeem_voucher_orders _ _ _ _ _ Hr)
    end.
  - exfalso.
    match goal with
    | Hr : redeem_voucher _ _ _ = (Returned (inr _), _) |- _ =>
        destruct (redeem_voucher_orders _ _ _ _ _ Hr) as [Ho _]
    end.
    match goal with
    | Hi : insertable _ _ = true |- _ =>
        unfold insertable in Hi; apply andb_prop in Hi as [_ Hfresh];
        apply negb_true_iff in Hfresh; rewrite Ho in Hfresh
    end.
    assert (Hex : existsb (fun o0 => String.eqb (Order.order_code o0)
                                       (order_code_at (OrderRequest.now_ms req')))
                          (orders db') = true).
    { apply existsb_exists. exists o. split; [exact Hin|].
      apply String.eqb_eq. now rewrite Hcode, Hms. }
    congruence.
Qed.

(* ================================================================== *)
(** ** The cart of the storefront *)

Lemma same_line_key (product_id : Z) (color size : string) (i : CartItem.t) :
  same_line product_id color size i = true <-> line_key i = (product_id, color, size).
Proof.
  unfold same_line, line_key. rewrite !andb_true_iff, Z.eqb_eq, !String.eqb_eq.
  split; [intros [[-> ->] ->]; reflexivity | intros E; inversion E; auto].
Qed.

Lemma assign_first_map {A B : Type} (f : A -> B) (found : A -> bool)
    (assign : A -> A) (l : list A) :
  (forall x, f (assign x) = f x) ->
  map f (assign_first found assign l) = map f l.
Proof.
  intros Hf. induction l as [|x l IH]; [reflexivity|]. simpl.
  destruct (found x); simpl; [now rewrite Hf | now rewrite IH].
Qed.

Lemma assign_first_Forall {A : Type} (P : A -> Prop) (found : A -> bool)
    (assign : A -> A) (l : list A) :
  (forall x, P x -> P (assign x)) ->
  Forall P l -> Forall P (assign_first found assign l).
Proof.
  intros HP. induction 1 as [|x l Hx Hl IH]; simpl; [constructor|].
  destruct (found x); constructor; auto.
Qed.

Lemma assign_first_cart_ok (found : CartItem.t -> bool)
    (assign : CartItem.t -> CartItem.t) (cart : list CartItem.t) :
  (forall i, line_key (assign i) = line_key i) ->
  (forall i, CartItem.cartId (assign i) = CartItem.cartId i) ->
  (forall i, 1 <= CartItem.qty i <= 99 -> 1 <= CartItem.qty (assign i) <= 99) ->
  cart_ok cart -> cart_ok (assign_first found assign cart).
Proof.
  intros Hk Hi Hq (Hqty & Hkeys & Hids). unfold cart_ok.
  rewrite !assign_first_map by assumption.
  split; [|split]; trivial. now apply assign_first_Forall.
Qed.

Lemma filter_cart_ok (keep : CartItem.t -> bool) (cart : list CartItem.t) :
  cart_ok cart -> cart_ok (filter keep cart).
Proof.
  intros (Hqty & Hkeys & Hids). split; [|split].
  - now apply Forall_filter.
  - now apply NoDup_map_filter.
  - now apply NoDup_map_filter.
Qed.

Lemma cartCount_from (cart : list CartItem.t) (s : Z) :
  Forall (fun i => 1 <= CartItem.qty i <= 99) cart ->
  s + Z.of_nat (List.length cart)
  <= fold_left (fun s i => s + CartItem.qty i) cart s.
Proof.
  intros H. revert s. induction H as [|i l Hi _ IH]; intros s; simpl; [lia|].
  specialize (IH (s + CartItem.qty i)). lia.
Qed.

(** X12.  The functions of the script that change the cart keep it well
    formed: between 1 and 99 pieces on every line, one line for a variant
    of a product (product, colour, size), one line for a cart id.
    [addToCart] does so when it is given between 1 and 99 pieces, which is
    what [changeQty] always leaves in [orderQty], and a cart id that is
    not in use.  On such a cart the badge is hidden only when the cart is
    empty. *)
Theorem cart_kept_wellformed (cart : list CartItem.t) :
  cart_ok cart ->
  (forall product color size qty new_id,
      1 <= qty <= 99 -> ~ In new_id (map CartItem.cartId cart) ->
      cart_ok (addToCart product color size qty new_id cart))
  /\ (forall cartId delta, cart_ok (changeCartQty cartId delta cart))
  /\ (forall cartId, cart_ok (removeCartItem cartId cart))
  /\ cart_ok (removeChecked cart)
  /\ (forall b, cart_ok (toggleCheckAll b cart))
  /\ (forall cartId b, cart_ok (toggleCartItem cartId b cart))
  /\ (forall d orderQty, 1 <= changeQty d orderQty <= 99)
  /\ (updateCartBadge cart = None <-> cart = []).
Proof.
  intros Hok. split; [|split; [|split; [|split; [|split; [|split; [|split]]]]]].
  - intros product color size qty new_id Hq Hnew. unfold addToCart.
    destruct (find _ cart) eqn:Ef.
    + apply assign_first_cart_ok; trivial. intros i Hi. simpl. lia.
    + destruct Hok as (Hqty & Hkeys & Hids). split; [|split].
      * apply Forall_app. split; [exact Hqty|]. repeat constructor; simpl; lia.
      * rewrite map_app. simpl. apply NoDup_snoc; [exact Hkeys|].
        intros Hin. apply in_map_iff in Hin as (i & Hk & Hin).
        apply (find_none _ _ Ef) in Hin.
        change (line_key i = (PageProduct.id product, color, size)) in Hk.
        apply same_line_key in Hk. congruence.
      * rewrite map_app. simpl. now apply NoDup_snoc.
  - intros cartId delta. unfold changeCartQty. apply assign_first_cart_ok; trivial.
    intros i _. simpl. lia.
  - intros cartId. unfold removeCartItem. now apply filter_cart_ok.
  - unfold removeChecked. now apply filter_cart_ok.
  - intros b. destruct Hok as (Hqty & Hkeys & Hids). unfold toggleCheckAll, cart_ok.
    rewrite !map_map. simpl. split; [|split]; trivial.
    apply Forall_forall. intros i Hin. apply in_map_iff in Hin as (j & <- & Hj).
    rewrite Forall_forall in Hqty. simpl. now apply Hqty.
  - intros cartId b. unfold toggleCartItem. now apply assign_first_cart_ok.
  - intros d orderQty. unfold changeQty. lia.
  - destruct Hok as (Hqty & _). unfold updateCartBadge, cartCount.
    pose proof (cartCount_from cart 0 Hqty) as Hc.
    split.
    + destruct cart as [|i l]; [reflexivity|]. simpl List.length in Hc.
      destruct (0 <? _) eqn:E; [discriminate|]. apply Z.ltb_ge in E. lia.
    + intros ->. reflexivity.
Qed.

Lemma line_qty_none (product_id : Z) (color size : string) (cart : list CartItem.t) :
  (forall i, In i cart -> same_line product_id color size i = false) ->
  line_qty product_id color size cart = 0.
Proof.
  induction cart as [|a l IH]; intros H; [reflexivity|]. simpl.
  rewrite (H a) by (simpl; auto). apply IH. intros i Hi. apply H. simpl; auto.
Qed.

Lemma line_qty_app (product_id : Z) (color size : string) (l1 l2 : list CartItem.t) :
  line_qty product_id color size (l1 ++ l2)
  = line_qty product_id color size l1 + line_qty product_id color size l2.
Proof.
  induction l1 as [|a l IH]; simpl; [reflexivity|].
  destruct (same_line _ _ _ a); rewrite IH; lia.
Qed.

Lemma line_qty_assign_other (product_id : Z) (c s : string)
    (found : CartItem.t -> bool) (assign : CartItem.t -> CartItem.t)
    (cart : list CartItem.t) :
  (forall i, line_key (assign i) = line_key i) ->
  (forall i, found i = true -> same_line product_id c s i = false) ->
  line_qty product_id c s (assign_first found assign cart)
  = line_qty product_id c s cart.
Proof.
  intros Hk Hf. induction cart as [|a l IH]; [reflexivity|]. simpl.
  destruct (found a) eqn:Ea; simpl.
  - assert (Hs : same_line product_id c s (assign a) = false).
    { destruct (same_line product_id c s (assign a)) eqn:E; [|reflexivity].
      apply same_line_key in E. rewrite Hk in E. apply same_line_key in E.
      rewrite (Hf a Ea) in E. discriminate. }
    now rewrite Hs, (Hf a Ea).
  - now rewrite IH.
Qed.

(** X13.  [addToCart] adds the pieces to the line of the variant, and
    stops at 99: afterwards the cart holds [min(99, before + qty)] pieces
    of the variant and as many of every other variant as before. *)
Theorem addToCart_merges (product : PageProduct.t) (color size : string) (qty : Z)
    (new_id : string) (cart : list CartItem.t) :
  cart_ok cart -> 1 <= qty <= 99 ->
  line_qty (PageProduct.id product) color size
           (addToCart product color size qty new_id cart)
  = Z.min 99 (line_qty (PageProduct.id product) color size cart + qty)
  /\ (forall product_id c s,
        (product_id, c, s) <> (PageProduct.id product, color, size) ->
        line_qty product_id c s (addToCart product color size qty new_id cart)
        = line_qty product_id c s cart).
Proof.
  intros (Hqty & Hkeys & _) Hq. unfold addToCart.
  destruct (find _ cart) eqn:Ef.
  - split.
    + clear Hqty. revert Ef. induction cart as [|a l IH]; intros Ef; [discriminate|].
      simpl in Hkeys, Ef. inversion Hkeys as [|? ? Hnot Hkeys']; subst. simpl.
      destruct (same_line (PageProduct.id product) color size a) eqn:Ea.
      * cbn [assign_first line_qty fold_right].
        assert (Hrest : line_qty (PageProduct.id product) color size l = 0).
        { apply line_qty_none. intros i Hi.
          destruct (same_line (PageProduct.id product) color size i) eqn:Ei;
            [|reflexivity].
          exfalso. apply Hnot. apply same_line_key in Ea, Ei.
          rewrite Ea, <- Ei. now apply in_map. }
        change (same_line (PageProduct.id product) color size
                  (CartItem.with_qty (Z.min 99 (CartItem.qty a + qty)) a))
          with (same_line (PageProduct.id product) color size a).
        fold (line_qty (PageProduct.id product) color size l).
        rewrite Ea, Hrest. simpl. lia.
      * cbn [assign_first line_qty fold_right].
        fold (line_qty (PageProduct.id product) color size l).
        fold (line_qty (PageProduct.id product) color size
                (assign_first (same_line (PageProduct.id product) color size)
                   (fun exist => CartItem.with_qty (Z.min 99 (CartItem.qty exist + qty)) exist)
                   l)).
        rewrite Ea. now apply IH.
    + intros product_id c s Hne. apply line_qty_assign_other; [reflexivity|].
      intros i Hi. destruct (same_line product_id c s i) eqn:E; [|reflexivity].
      apply same_line_key in Hi, E. congruence.
  - split.
    + rewrite line_qty_app, (line_qty_none _ _ _ cart (find_none _ _ Ef)).
      simpl. unfold same_line. simpl. rewrite Z.eqb_refl, !String.eqb_refl. simpl. lia.
    + intros product_id c s Hne. rewrite line_qty_app. simpl.
      match goal with
      | |- context [same_line product_id c s ?new] =>
          destruct (same_line product_id c s new) eqn:E
      end; [|lia].
      apply same_line_key in E. unfold line_key in E. simpl in E. congruence.
Qed.

(* ================================================================== *)
(** ** Orders placed from the storefront *)

Lemma field_order_code (o : Order.t) :
  field "order_code" (body (created_reply o)) = Js.Str (Order.order_code o).
Proof. reflexivity. Qed.

(** A request posted to the order route either creates the order of the
    row the route builds, or is rejected and leaves the orders alone. *)
Lemma axios_post_createOrder (req : OrderRequest.t) (db : Db) :
  (exists o p discount db1,
      axios_post (createOrder req) db = (inl (created_reply o), add_order o db1)
      /\ o = order_row req p discount (orders_seq db1 + 1)
      /\ find_product (OrderRequest.product_id req) db = Some p
      /\ redeem_voucher (OrderRequest.voucher_code req) (OrderRequest.now_iso req) db
         = (Returned (inr discount), db1))
  \/ (exists r db',
        axios_post (createOrder req) db = (inr r, db')
        /\ orders db' = orders db).
Proof.
  unfold axios_post. destruct (createOrder req db) as [out db'] eqn:E.
  order_cases E; try (right; eexists; eexists; split; reflexivity).
  - right. redeem_cases; eexists; eexists; split; reflexivity.
  - right. eexists; eexists. split; [reflexivity|].
    match goal with
    | Hr : redeem_voucher _ _ _ = (Returned (inr _), _) |- _ =>
        now destruct (redeem_voucher_orders _ _ _ _ _ Hr)
    end.
  - left. exists o, p, discount, db1. repeat split; assumption || reflexivity.
Qed.

Lemma or_else_text (s : string) : Js.or_else (Js.Str s) (Js.Str "") = Js.Str s.
Proof.
  unfold Js.or_else. simpl. destruct (String.eqb s "") eqn:E; [|reflexivity].
  apply String.eqb_eq in E. now subst.
Qed.

Lemma post_lines_result (name phone address note : string) (voucher_code : Js.value)
    (clock : nat -> string * Z) (items : list CartItem.t) :
  forall (k : nat) (codes : list Js.value) (db : Db),
  exists (new : list Order.t),
    orders (snd (post_lines name phone address note voucher_code clock k items codes db))
    = (orders db ++ new)%list
    /\ Forall2 line_ordered (firstn (List.length new) items) new
    /\ match fst (post_lines name phone address note voucher_code clock k items codes db)
       with
       | inl codes' =>
           List.length new = List.length items
           /\ codes' = (codes ++ map (fun o => Js.Str (Order.order_code o)) new)%list
       | inr _ => (List.length new < List.length items)%nat
       end.
Proof.
  induction items as [|item rest IH]; intros k codes db.
  - exists []. simpl. rewrite !app_nil_r. repeat split. constructor.
  - cbn [post_lines].
    destruct (axios_post_createOrder
                (line_request name phone address note voucher_code (clock k) item) db)
      as [(o & p & discount & db1 & -> & Ho & _ & Hr) | (r & db' & -> & Hsame)].
    + destruct (IH (S k) (codes ++ [field "order_code" (body (created_reply o))])%list
                   (add_order o db1)) as (new & Hnew & Hlines & Hout).
      exists (o :: new). split; [|split].
      * rewrite Hnew. simpl orders.
        destruct (redeem_voucher_orders _ _ _ _ _ Hr) as [-> _].
        now rewrite <- app_assoc.
      * simpl. constructor; [|exact Hlines].
        subst o. unfold line_ordered, line_request. simpl.
        rewrite !or_else_text. repeat split.
      * destruct (fst (post_lines _ _ _ _ _ _ _ _ _ _)).
        -- destruct Hout as [Hlen ->]. split; [simpl; lia|].
           rewrite field_order_code, <- app_assoc. reflexivity.
        -- simpl. lia.
    + exists []. simpl. rewrite app_nil_r. split; [exact Hsame|].
      split; [constructor | lia].
Qed.

(** X14.  The checkout of the cart places one order for each checked
    line, in the order of the cart, and stops at the first request that is
    rejected.  When all went through, the array [codes] of the script
    holds the code of each new order, so that the number its toast shows,
    [codes.length], is the number of orders placed, one for each checked
    line, and the checked lines leave the cart.  When one was rejected,
    the orders placed before it stay in the datastore and the cart is
    left as it was, checked lines included.  When a field of the form is
    refused nothing is sent. *)
Theorem cart_checkout_line_by_line (form : OrderForm) (clock : nat -> string * Z)
    (cart : list CartItem.t) (ckAppliedVoucher : Js.value) (db : Db) :
  let '((how, (cart', _)), db') :=
    submitCartOrder form clock cart ckAppliedVoucher db in
  let lines := filter CartItem.checked cart in
  exists (new : list Order.t),
    orders db' = (orders db ++ new)%list
    /\ Forall2 line_ordered (firstn (List.length new) lines) new
    /\ match how with
       | Placed codes =>
           List.length new = List.length lines
           /\ codes = map (fun o => Js.Str (Order.order_code o)) new
           /\ List.length codes = List.length lines
           /\ cart' = filter (fun i => negb (CartItem.checked i)) cart
       | FieldRejected _ => db' = db /\ cart' = cart
       | VoucherLapsed | Failed =>
           (List.length new < List.length lines)%nat /\ cart' = cart
       end.
Proof.
  unfold submitCartOrder.
  destruct (String.eqb (JsString.trim (formName form)) "").
  { exists []. rewrite app_nil_r. repeat split. constructor. }
  destruct (cart_phone_refused (JsString.trim (formPhone form))).
  { exists []. rewrite app_nil_r. repeat split. constructor. }
  destruct (String.eqb (JsString.trim (formAddress form)) "").
  { exists []. rewrite app_nil_r. repeat split. constructor. }
  cbv zeta.
  destruct (post_lines_result (JsString.trim (formName form))
              (JsString.trim (formPhone form)) (JsString.trim (formAddress form))
              (JsString.trim (formNote form)) (code_sent ckAppliedVoucher) clock
              (filter CartItem.checked cart) O [] db) as (new & Hnew & Hlines & Hout).
  destruct (post_lines _ _ _ _ _ _ _ _ _ _) as [[codes | res] db'].
  - exists new. simpl in *. destruct Hout as [Hlen ->]. repeat split; trivial.
    now rewrite length_map.
  - simpl in *. destruct (lapsed res); exists new; repeat split; trivial.
Qed.

Lemma space_kept (c : ascii) :
  JsString.is_space c = true -> Ascii.eqb "s" c = false /\ is_digit c = false.
Proof.
  destruct c as [b0 b1 b2 b3 b4 b5 b6 b7].
  destruct b0, b1, b2, b3, b4, b5, b6, b7; intros H; try discriminate H;
    split; reflexivity.
Qed.

Lemma kept_symbol_refused (drop : ascii -> bool) (c : ascii) (s : string) :
  In c (list_ascii_of_string s) -> drop c = false -> is_digit c = false ->
  all_digits (remove_chars drop s) = false.
Proof.
  intros Hin Hd Hc. induction s as [|a s IH]; [contradiction|].
  simpl in Hin. destruct Hin as [-> | Hin].
  - simpl. rewrite Hd. simpl. now rewrite Hc.
  - simpl. destruct (drop a); [now apply IH|].
    simpl. rewrite (IH Hin). apply andb_false_r.
Qed.

(** X15.  A phone number written with white space inside, such as
    [0912 345 678], is accepted by the order popup, which posts the
    order, and refused by the checkout of the cart, which shakes the
    phone field and sends nothing: the pattern of the checkout is written
    with a single backslash inside the template literal of the page, so
    the script removes the letter [s] and not the white space. *)
Theorem spaced_phone_refused_at_checkout (form : OrderForm) :
  JsString.trim (formName form) <> "" ->
  JsString.trim (formAddress form) <> "" ->
  (exists c, In c (list_ascii_of_string (JsString.trim (formPhone form)))
             /\ JsString.is_space c = true) ->
  nine_to_eleven_digits
    (remove_chars JsString.is_space (JsString.trim (formPhone form))) = true ->
  (forall clock cart ckAppliedVoucher db,
      submitCartOrder form clock cart ckAppliedVoucher db
      = ((FieldRejected "ckFieldPhone", (cart, ckAppliedVoucher)), db))
  /\ (forall clock product color size orderQty appliedVoucher db shaken,
        fst (fst (submitOrder form clock (Some product) color size orderQty
                    appliedVoucher db))
        <> FieldRejected shaken).
Proof.
  intros Hname Haddress (c & Hin & Hc) Hdigits.
  apply String.eqb_neq in Hname, Haddress.
  assert (Hphone : String.eqb (JsString.trim (formPhone form)) "" = false).
  { destruct (JsString.trim (formPhone form)); [contradiction | reflexivity]. }
  split.
  - intros clock cart ckAppliedVoucher db. unfold submitCartOrder.
    rewrite Hname. unfold cart_phone_refused, nine_to_eleven_digits.
    destruct (space_kept c Hc) as [Hs Hd].
    rewrite (kept_symbol_refused _ c _ Hin Hs Hd), Hphone. reflexivity.
  - intros clock product color size orderQty appliedVoucher db shaken.
    unfold submitOrder. rewrite Hname. unfold order_phone_refused.
    rewrite Hphone, Hdigits, Haddress. cbn [orb negb].
    destruct (axios_post _ db) as [[res | res] db']; [discriminate|].
    destruct (lapsed res); discriminate.
Qed.

Lemma blank_code_no_discount (now : string) (db db1 : Db) (discount : Z) :
  redeem_voucher (Js.Str "") now db = (Returned (inr discount), db1) ->
  discount = 0 /\ db1 = db.
Proof.
  rewrite redeem_voucher_string.
  replace (code_given (Js.Str "")) with false by reflexivity.
  intros E. inversion E. auto.
Qed.

(** The total of an order placed from the popup without a voucher. *)
Lemma popup_order_plain (form : OrderForm) (clock : string * Z)
    (product : PageProduct.t) (row : Product.t) (color size : string)
    (orderQty : Z) (db db' : Db) (codes : list Js.value) (applied' : Js.value) :
  find_product (Js.Num (PageProduct.id product)) db = Some row ->
  Product.price row = PageProduct.price product ->
  orderQty <> 0 ->
  submitOrder form clock (Some product) color size orderQty Js.Null db
  = ((Placed codes, applied'), db') ->
  exists o,
    orders db' = (orders db ++ [o])%list
    /\ codes = [Js.Str (Order.order_code o)]
    /\ Order.quantity o = orderQty
    /\ updateOrderTotal (Some product) orderQty Js.Null = Some (Order.total_price o).
Proof.
  intros Hrow Hprice Hqty. unfold submitOrder.
  destruct (String.eqb _ ""); [discriminate|].
  destruct (order_phone_refused _); [discriminate|].
  destruct (String.eqb _ ""); [discriminate|].
  match goal with
  | |- context [axios_post (createOrder ?req) db] =>
      destruct (axios_post_createOrder req db)
        as [(o & p & discount & db1 & -> & Ho & Hp & Hr) | (r & db2 & -> & _)]
  end.
  - intros E. inversion E; subst codes applied' db'. clear E.
    simpl in Hp, Hr. rewrite Hrow in Hp. inversion Hp; subst p.
    apply blank_code_no_discount in Hr as [-> ->].
    exists o. split; [reflexivity|]. split; [reflexivity|].
    subst o. unfold order_row, quantity_of. simpl.
    apply Z.eqb_neq in Hqty. rewrite Hqty. split; [reflexivity|].
    unfold order_total. rewrite Hprice. reflexivity.
  - destruct (lapsed r); discriminate.
Qed.

(** X16.  What the order popup shows is what the customer is charged.
    After [openOrder] has reset the voucher, one press on the voucher
    button and then the order button, with the datastore unchanged in
    between: when the order is placed, it is one new order, of the
    quantity chosen, and its total is the total the popup displayed,
    provided the page holds the price the datastore holds for the
    product. *)
Theorem popup_total_is_charged
    (db db' : Db) (input now : string) (form : OrderForm) (clock : string * Z)
    (product : PageProduct.t) (row : Product.t) (color size : string)
    (orderQty : Z) (codes : list Js.value) (applied' : Js.value) :
  NoDup (map Voucher.code (vouchers db)) ->
  find_product (Js.Num (PageProduct.id product)) db = Some row ->
  Product.price row = PageProduct.price product ->
  orderQty <> 0 ->
  submitOrder form clock (Some product) color size orderQty
    (fst (applyVoucher input now Js.Null db)) db
  = ((Placed codes, applied'), db') ->
  snd (applyVoucher input now Js.Null db) = db
  /\ exists o,
      orders db' = (orders db ++ [o])%list
      /\ codes = [Js.Str (Order.order_code o)]
      /\ Order.quantity o = orderQty
      /\ updateOrderTotal (Some product) orderQty
           (fst (applyVoucher input now Js.Null db))
         = Some (Order.total_price o).
Proof.
  intros Hnd Hrow Hprice Hqty. unfold applyVoucher.
  fold (normalize input).
  destruct (String.eqb (normalize input) "") eqn:Eblank.
  { intros E. split; [reflexivity|]. now apply (popup_order_plain form clock _ row color size _ db db' codes applied'). }
  apply String.eqb_neq in Eblank.
  unfold axios_post at 1 2 3. rewrite (validateVoucher_string _ now db Eblank).
  rewrite normalize_idem.
  destruct (lookup (normalize input) now db) as [v|] eqn:El;
    [destruct (limit_reached v) eqn:Elim|].
  1, 3: simpl; intros E; (split; [reflexivity|]);
    now apply (popup_order_plain form clock _ row color size _ db db' codes applied').
  cbn [status json fst snd].
  replace ((200 <=? 200) && (200 <? 300)) with true by reflexivity.
  cbn [fst snd body json].
  change (field "data" _)
    with (Js.Obj [("id", Js.Num (Voucher.id v));
                  ("code", Js.Str (Voucher.code v));
                  ("discount_amount", Js.Num (Voucher.discount_amount v))]).
  intros E. split; [reflexivity|].
  revert E. unfold submitOrder.
  destruct (String.eqb _ ""); [discriminate|].
  destruct (order_phone_refused _); [discriminate|].
  destruct (String.eqb _ ""); [discriminate|].
  match goal with
  | |- context [axios_post (createOrder ?req) db] =>
      destruct (axios_post_createOrder req db)
        as [(o & p & discount & db1 & -> & Ho & Hp & Hr) | (r & db2 & -> & _)]
  end.
  - intros E. inversion E; subst codes applied' db'. clear E.
    cbn [OrderRequest.product_id OrderRequest.voucher_code OrderRequest.now_iso] in Hp, Hr.
    rewrite Hrow in Hp. inversion Hp; subst p.
    apply lookup_code in El as [Hin Hvalid].
    assert (Hcode : Voucher.code v = normalize input) by apply Hvalid.
    change (code_sent _) with (Js.Str (Voucher.code v)) in Hr.
    rewrite redeem_voucher_string in Hr.
    rewrite Hcode, code_given_normalize, normalize_idem in Hr.
    rewrite <- code_given_normalize, (normalized_code_given _ (normalize_idem input) Eblank) in Hr.
    destruct (lookup (normalize input) (fst clock) db) as [w|] eqn:El'; [|discriminate].
    destruct (limit_reached w); [discriminate|]. inversion Hr; subst discount db1.
    apply lookup_code in El' as [Hin' Hvalid'].
    assert (w = v).
    { apply (NoDup_map_inj Voucher.code (vouchers db)); trivial.
      destruct Hvalid' as [-> _]. now rewrite Hcode. }
    subst w.
    exists o. split; [reflexivity|]. split; [reflexivity|].
    subst o. unfold order_row, quantity_of. simpl.
    apply Z.eqb_neq in Hqty. rewrite Hqty. split; [reflexivity|].
    unfold updateOrderTotal, discount_shown, order_total. simpl.
    rewrite Hprice. reflexivity.
  - destruct (lapsed r); discriminate.
Qed.






End Worker.

(* ================================================================== *)
(** ** The statements on the sample store *)

Example parseInt_px : JsString.parseInt "  12px" = Some 12.
Proof. reflexivity. Qed.

Example parseInt_hex : JsString.parseInt "0x1f" = Some 31.
Proof. reflexivity. Qed.

Example parseInt_negative : Js.num_or (Js.parseInt (Js.Str "-3")) 1 = -3.
Proof. reflexivity. Qed.

Example parseInt_word : Js.num_or (Js.parseInt (Js.Str "abc")) 1 = 1.
Proof. reflexivity. Qed.

Example normalize_sample : normalize "  sale10 " = "SALE10".
Proof. reflexivity. Qed.

Example order_code_sample : order_code_at 1700000000000 = "FSLOYW3V28".
Proof. reflexivity. Qed.

(** Price 200000, quantity 2, voucher of 50000: total 350000. *)
Example sample_order_created :
  createOrder sample_key_eq (sample_request sample_clock) sample_db
  = (Returned (json [("success", Js.Bool true);
                     ("order_code", Js.Str "FSLWVXZ5S0");
                     ("id", Js.Num 1);
                     ("discount", Js.Num 50000);
                     ("total", Js.Num 350000)] 200),
     sample_db_after).
Proof. vm_compute. reflexivity. Qed.

(** A voucher with [usage_limit = 1] and [used_count = 1]: VOUCHER_LIMIT. *)
Example used_up_voucher_limit :
  validateVoucher (Js.Str "ONCE") "2024-06-01T10:00:00.000Z"
    (mkDb [] [] 0
          [Voucher.mk 1 "ONCE" 10000 "2024-01-01T00:00:00.000Z"
                      "2024-12-31T23:59:59.000Z" 1 1 1] 1)
  = (Returned (json (failure "VOUCHER_LIMIT") 400),
     mkDb [] [] 0
          [Voucher.mk 1 "ONCE" 10000 "2024-01-01T00:00:00.000Z"
                      "2024-12-31T23:59:59.000Z" 1 1 1] 1).
Proof. vm_compute. reflexivity. Qed.












(** Witness of C5: the unlimited voucher, used seven times already, is
    accepted by the validate route. *)
Lemma unlimited_voucher_never_limited_witness :
  In unlimited_voucher (vouchers unlimited_db)
  /\ Voucher.usage_limit unlimited_voucher = 0
  /\ Voucher.used_count unlimited_voucher = 7
  /\ fst (validateVoucher (Js.Str " sale50") "2024-06-01T10:00:00.000Z" unlimited_db)
     <> Returned (json (failure "VOUCHER_LIMIT") 400).
Proof.
  split; [simpl; auto|]. split; [reflexivity|]. split; [reflexivity|].
  destruct (unlimited_voucher_never_limited sample_key_eq unlimited_db
              unlimited_voucher " sale50" "2024-06-01T10:00:00.000Z") as [Hval _].
  - repeat constructor; simpl; tauto.
  - simpl; auto.
  - reflexivity.
  - repeat split; reflexivity.
  - destruct (validateVoucher (Js.Str " sale50") "2024-06-01T10:00:00.000Z" unlimited_db)
      as [[r|e] db'] eqn:E; simpl; [|discriminate].
    intros X. inversion X. subst r. now apply (Hval _ db' eq_refl).
Defined.



(* ================================================================== *)
(** ** The further statements on the sample store *)

Lemma sample_db_codes : NoDup (map Voucher.code (vouchers sample_db)).
Proof. repeat constructor. intros []. Qed.



Lemma sample_created :
  createOrder sample_key_eq (sample_request sample_clock) sample_db
  = (Returned (created_reply sample_order), sample_db_after).
Proof. vm_compute. reflexivity. Qed.



(** Witness of X4: a second voucher, inserted, is accepted. *)
Lemma inserted_voucher_accepted_witness :
  validateVoucher (Js.Str " tet10 ") sample_now
    (snd (insert_voucher "TET10" 10000 "2024-01-01T00:00:00.000Z"
            "2024-12-31T23:59:59.000Z" 0 sample_db))
  = (Returned (json [("success", Js.Bool true);
                     ("data", Js.Obj [("id", Js.Num (vouchers_seq sample_db + 1));
                                      ("code", Js.Str "TET10");
                                      ("discount_amount", Js.Num 10000)])] 200),
     snd (insert_voucher "TET10" 10000 "2024-01-01T00:00:00.000Z"
            "2024-12-31T23:59:59.000Z" 0 sample_db)).
Proof.
  apply inserted_voucher_accepted.
  - reflexivity.
  - reflexivity.
  - reflexivity.
  - reflexivity.
  - unfold safe_integer. simpl. lia.
  - reflexivity.
  - reflexivity.
  - discriminate.
  - reflexivity.
  - reflexivity.
Defined.

Lemma sample_key_eq_text (i : Z) :
  sample_key_eq (Js.Num 1) i = sample_key_eq (Js.Str "1") i.
Proof. simpl. now rewrite andb_true_r. Qed.

(** Witness of X5: the sample product, deleted, is no longer ordered. *)
Lemma unavailable_product_not_ordered_witness :
  createOrder sample_key_eq (sample_request sample_clock)
    (snd (deleteProduct sample_key_eq "1" sample_db))
  = (Returned (json (failure "Product not found") 404),
     snd (deleteProduct sample_key_eq "1" sample_db)).
Proof.
  apply (unavailable_product_not_ordered sample_key_eq sample_db "1"
           (sample_request sample_clock)).
  - exact sample_key_eq_text.
  - reflexivity.
  - reflexivity.
Defined.




Lemma sample_db_orders_ok : orders_ok sample_db.
Proof. repeat split; constructor. Qed.

(** Witness of X9: an order is placed, cancelled and deleted. *)
Lemma orders_kept_consistent_witness :
  orders_ok (perform_all sample_key_eq
               [inl (OpCreateOrder (sample_request sample_clock));
                inr (OpUpdateOrderStatus "1" "cancelled");
                inr (OpDeleteOrder "1")] sample_db)
  /\ orders_seq sample_db
     <= orders_seq (perform_all sample_key_eq
                      [inl (OpCreateOrder (sample_request sample_clock));
                       inr (OpUpdateOrderStatus "1" "cancelled");
                       inr (OpDeleteOrder "1")] sample_db)
  /\ 0 <= revenue (adminStats
                     (perform_all sample_key_eq
                        [inl (OpCreateOrder (sample_request sample_clock));
                         inr (OpUpdateOrderStatus "1" "cancelled");
                         inr (OpDeleteOrder "1")] sample_db))
  /\ pendingOrders (adminStats
                      (perform_all sample_key_eq
                         [inl (OpCreateOrder (sample_request sample_clock));
                          inr (OpUpdateOrderStatus "1" "cancelled");
                          inr (OpDeleteOrder "1")] sample_db))
     <= totalOrders (adminStats
                       (perform_all sample_key_eq
                          [inl (OpCreateOrder (sample_request sample_clock));
                           inr (OpUpdateOrderStatus "1" "cancelled");
                           inr (OpDeleteOrder "1")] sample_db)).
Proof.
  exact (orders_kept_consistent sample_key_eq _ sample_db sample_db_orders_ok).
Defined.

(** Witness of X10: the code of the sample reading of the clock. *)
Lemma order_code_determines_time_witness :
  (exists body, order_code_at sample_clock = String.append "FS" body
                /\ JsString.digits 36 body None = Some sample_clock)
  /\ (forall b, 0 <= b -> order_code_at sample_clock = order_code_at b ->
                sample_clock = b).
Proof.
  apply (order_code_determines_time sample_clock). discriminate.
Defined.

(** Witness of X11: the sample request sent twice at one reading. *)
Lemma same_millisecond_refused_witness :
  exists r',
    fst (createOrder sample_key_eq (sample_request sample_clock) sample_db_after)
    = Returned r'
    /\ status r' <> 200
    /\ orders (snd (createOrder sample_key_eq (sample_request sample_clock)
                      sample_db_after))
       = orders sample_db_after.
Proof.
  exact (same_millisecond_refused sample_key_eq _ (sample_request sample_clock) _ _ _
           sample_created eq_refl eq_refl).
Defined.

Lemma sample_cart_ok : cart_ok sample_cart.
Proof.
  split; [|split].
  - repeat constructor; discriminate.
  - repeat constructor; simpl; intuition discriminate.
  - repeat constructor; simpl; intuition discriminate.
Qed.

(** Witness of X12: the sample cart stays well formed. *)
Lemma cart_kept_wellformed_witness :
  cart_ok (addToCart sample_page_product "Do" "M" 99 "c3" sample_cart)
  /\ cart_ok (changeCartQty "c2" (-5) sample_cart)
  /\ (updateCartBadge sample_cart = None <-> sample_cart = []).
Proof.
  destruct (cart_kept_wellformed sample_cart sample_cart_ok)
    as (Hadd & Hqty & _ & _ & _ & _ & _ & Hbadge).
  split; [|split].
  - apply Hadd; [split; discriminate|]. simpl. intuition discriminate.
  - apply Hqty.
  - exact Hbadge.
Defined.

(** Witness of X13: 99 more pieces of a variant of which the cart holds
    one make 99, not 100. *)
Lemma addToCart_merges_witness :
  line_qty 1 "Do" "M" (addToCart sample_page_product "Do" "M" 99 "c3" sample_cart)
  = Z.min 99 (line_qty 1 "Do" "M" sample_cart + 99)
  /\ line_qty 1 "Xanh" "L" (addToCart sample_page_product "Do" "M" 99 "c3" sample_cart)
     = line_qty 1 "Xanh" "L" sample_cart.
Proof.
  destruct (addToCart_merges sample_page_product "Do" "M" 99 "c3" sample_cart
              sample_cart_ok) as [Hsame Hother].
  - split; discriminate.
  - split; [exact Hsame|]. apply Hother. discriminate.
Defined.

(** Witness of X15: the phone [0912 345 678]. *)
Lemma spaced_phone_refused_at_checkout_witness :
  submitCartOrder sample_key_eq spaced_form sample_clocks sample_cart Js.Null sample_db
  = ((FieldRejected "ckFieldPhone", (sample_cart, Js.Null)), sample_db)
  /\ fst (fst (submitOrder sample_key_eq spaced_form (sample_clocks 0)
                 (Some sample_page_product) "Do" "M" 1 Js.Null sample_db))
     <> FieldRejected "fieldPhone".
Proof.
  destruct (spaced_phone_refused_at_checkout sample_key_eq spaced_form)
    as [Hcart Horder].
  - vm_compute. discriminate.
  - vm_compute. discriminate.
  - exists " "%char. split; [vm_compute; auto 10 | reflexivity].
  - reflexivity.
  - split; [apply Hcart | apply Horder].
Defined.

(** Witness of X16: two shirts with the sample voucher, from the popup. *)
Lemma popup_total_is_charged_witness :
  snd (applyVoucher " sale50 " sample_now Js.Null sample_db) = sample_db
  /\ exists o,
      orders sample_db_after = (orders sample_db ++ [o])%list
      /\ [Js.Str (order_code_at sample_clock)] = [Js.Str (Order.order_code o)]
      /\ Order.quantity o = 2
      /\ updateOrderTotal (Some sample_page_product) 2
           (fst (applyVoucher " sale50 " sample_now Js.Null sample_db))
         = Some (Order.total_price o).
Proof.
  apply (popup_total_is_charged sample_key_eq sample_db sample_db_after " sale50 "
           sample_now sample_form (sample_now, sample_clock) sample_page_product
           sample_product "" "" 2 [Js.Str (order_code_at sample_clock)]
           (fst (applyVoucher " sale50 " sample_now Js.Null sample_db))).
  - exact sample_db_codes.
  - reflexivity.
  - reflexivity.
  - discriminate.
  - vm_compute. reflexivity.
Defined.


(** A checkout that stops midway: the sample voucher is good for two
    orders and the cart has three checked lines.  Two orders are placed,
    the third request is answered VOUCHER_LIMIT, and the cart still holds
    its three lines. *)
Example checkout_stops_midway :
  let cart := (sample_cart ++ [sample_line "c3" "Den" "S" 1])%list in
  let '((how, (cart', applied')), db') :=
    submitCartOrder sample_key_eq sample_form sample_clocks cart
      (fst (applyCkVoucher " sale50 " sample_now Js.Null sample_db)) sample_db in
  how = VoucherLapsed
  /\ cart' = cart
  /\ applied' = Js.Null
  /\ List.length (orders db') = 2%nat.
Proof. vm_compute. repeat split. Qed.
